(** * jira-api-client: pagination, error normalisation and resource clients

    A shallow embedding of the TypeScript sources

      - [utils/pagination.ts]  (createPaginationParams, createPaginatedResponse,
                                fetchAllPages)
      - [utils/error.ts]       (JiraError, handleApiError)
      - [api/base.ts]          (BaseApiClient: get / post / put / delete)
      - [api/issues.ts], [api/projects.ts], [api/users.ts]
      - [utils/config.ts]      (createConfigFromEnv, createConfig)

    Conventions.  A TypeScript [number] holding a count, an offset or an HTTP
    status is an integer, modelled as [Z]; [values.length] is a [nat] injected
    with [Z.of_nat].  An optional field ([x?: T], possibly [undefined] or [null])
    is an [option].  A JavaScript object whose enumeration order is observed
    ([Object.keys(errors)[0]]) is an association list in that order.  Promises are
    modelled by explicit state passing: an asynchronous call is a function from
    the state of the outside world to an outcome (rejection on the left,
    resolution on the right) and a new state. *)

From Stdlib Require Import ZArith List String Ascii Bool Lia.
Import ListNotations.
Local Open Scope string_scope.
Local Open Scope list_scope.
Local Open Scope Z_scope.

(** String concatenation as written by template literals. *)
Local Infix "+++" := String.append (right associativity, at level 60).

(* ================================================================= *)
(** ** types/index.ts *)

(** [PaginationParams]: both fields optional. *)
Module PaginationParams.
Record t : Type := mk { maxResults : option Z; startAt : option Z }.
End PaginationParams.

(** [Required<PaginationParams>]: the cursor handed to a page function. *)
Module RequiredPaginationParams.
Record t : Type := mk { maxResults : Z; startAt : Z }.
End RequiredPaginationParams.

(** [PaginatedResponse<T>]. *)
Module PaginatedResponse.
Record t (T : Type) : Type := mk
  { values : list T; maxResults : Z; startAt : Z; total : Z; isLast : bool }.
Arguments mk {T} _ _ _ _ _.
Arguments values {T} _.
Arguments maxResults {T} _.
Arguments startAt {T} _.
Arguments total {T} _.
Arguments isLast {T} _.
End PaginatedResponse.

(** [JiraApiError]: the body of a failed reply.  The interface declares both
    fields, but [handleApiError] guards each with [|| ...], so either may be
    missing. [errors] is listed in [Object.keys] order. *)
Module JiraApiError.
Record t : Type := mk
  { errorMessages : option (list string);
    errors : option (list (string * string)) }.
End JiraApiError.

(** [JiraTransition]: only [id] and [name] are ever read by the client; the
    remaining fields ([description], [to]) are passed through untouched. *)
Module JiraTransition.
Record t : Type := mk { id : string; name : string }.
End JiraTransition.

(* ================================================================= *)
(** ** utils/pagination.ts *)

Definition DEFAULT_PAGINATION : RequiredPaginationParams.t :=
  {| RequiredPaginationParams.maxResults := 50;
     RequiredPaginationParams.startAt := 0 |}.

(** [a ?? b] *)
Definition nullish {A : Type} (a : option A) (b : A) : A :=
  match a with Some x => x | None => b end.

(** [params?.f] *)
Definition optChain {A B : Type} (a : option A) (f : A -> option B) : option B :=
  match a with Some x => f x | None => None end.

Definition createPaginationParams (params : option PaginationParams.t)
  : RequiredPaginationParams.t :=
  {| RequiredPaginationParams.maxResults :=
       nullish (optChain params PaginationParams.maxResults)
               (RequiredPaginationParams.maxResults DEFAULT_PAGINATION);
     RequiredPaginationParams.startAt :=
       nullish (optChain params PaginationParams.startAt)
               (RequiredPaginationParams.startAt DEFAULT_PAGINATION) |}.

(** A [Required<PaginationParams>] is in particular a [PaginationParams]
    (structural subtyping): this is the coercion TypeScript leaves implicit. *)
Definition asPaginationParams (p : RequiredPaginationParams.t) : PaginationParams.t :=
  {| PaginationParams.maxResults := Some (RequiredPaginationParams.maxResults p);
     PaginationParams.startAt := Some (RequiredPaginationParams.startAt p) |}.

Definition createPaginatedResponse {T : Type}
  (values : list T) (total : Z) (params : RequiredPaginationParams.t)
  : PaginatedResponse.t T :=
  let maxResults := RequiredPaginationParams.maxResults params in
  let startAt := RequiredPaginationParams.startAt params in
  let isLast := startAt + Z.of_nat (List.length values) >=? total in
  PaginatedResponse.mk values maxResults startAt total isLast.

(** How an [async] function that loops ends, when observed for a bounded
    number of iterations. *)
Inductive Completion (E A : Type) : Type :=
| Resolved (result : A)
| Rejected (error : E)
| Pending.
Arguments Resolved {E A} _.
Arguments Rejected {E A} _.
Arguments Pending {E A}.

Section FetchAllPages.

Context {T E W : Type}.

(** A page function.  It receives the cursor object itself (not a copy): the
    middle component of its result is the content of that object when the
    promise settles.  A page function that only reads its argument returns it
    unchanged. *)
Definition PageFn : Type :=
  RequiredPaginationParams.t -> W ->
  (E + PaginatedResponse.t T) * RequiredPaginationParams.t * W.

(** One recorded invocation of [fetchPage]. *)
Record Fetch : Type := mkFetch
  { arg : RequiredPaginationParams.t;      (* cursor when fetchPage is invoked *)
    settled : RequiredPaginationParams.t;  (* cursor when its promise settles  *)
    outcome : E + PaginatedResponse.t T }.

(** [paginationParams.startAt += paginationParams.maxResults] *)
Definition advance (p : RequiredPaginationParams.t) : RequiredPaginationParams.t :=
  {| RequiredPaginationParams.maxResults := RequiredPaginationParams.maxResults p;
     RequiredPaginationParams.startAt :=
       RequiredPaginationParams.startAt p + RequiredPaginationParams.maxResults p |}.

(** The [while (!isLast)] loop, entered with [isLast = false].  [fuel] bounds the
    number of iterations observed; the source has no bound.  Besides the
    completion and the final state, the model records every invocation of
    [fetchPage], in order. *)
Fixpoint fetchLoop (fuel : nat) (fetchPage : PageFn)
  (paginationParams : RequiredPaginationParams.t) (results : list T) (s : W)
  : Completion E (list T) * list Fetch * W :=
  match fuel with
  | O => (Pending, [], s)
  | S fuel' =>
    let '(out, paginationParams', s') := fetchPage paginationParams s in
    let call := mkFetch paginationParams paginationParams' out in
    match out with
    | inl e => (Rejected e, [call], s')
    | inr response =>
      let results' := results ++ PaginatedResponse.values response in
      if PaginatedResponse.isLast response
      then (Resolved results', [call], s')
      else
        let '(c, calls, s'') :=
          fetchLoop fuel' fetchPage (advance paginationParams') results' s' in
        (c, call :: calls, s'')
    end
  end.

Definition fetchAllPages (fuel : nat) (fetchPage : PageFn)
  (params : option PaginationParams.t) (s : W)
  : Completion E (list T) * list Fetch * W :=
  let paginationParams := createPaginationParams params in
  fetchLoop fuel fetchPage paginationParams [] s.

(** Projections of a run. *)
Definition completion (r : Completion E (list T) * list Fetch * W) := fst (fst r).
Definition calls (r : Completion E (list T) * list Fetch * W) := snd (fst r).

(** The pages delivered by the recorded invocations, in order. *)
Definition pagesOf (l : list Fetch) : list (PaginatedResponse.t T) :=
  flat_map (fun c => match outcome c with inr r => [r] | inl _ => [] end) l.

(** A page function that never writes to the cursor it is handed. *)
Definition readsOnly (fetchPage : PageFn) : Prop :=
  forall p s, snd (fst (fetchPage p s)) = p.

End FetchAllPages.

Arguments PageFn : clear implicits.
Arguments Fetch : clear implicits.

(* ================================================================= *)
(** ** utils/error.ts *)

Module JiraError.
Record t : Type := mk
  { message : string;
    status : Z;
    errors : list (string * string);
    errorMessages : list string }.

(** The constructor, with its default parameter values. *)
Definition new (message : string) (status : option Z)
  (errors : option (list (string * string))) (errorMessages : option (list string)) : t :=
  mk message (nullish status 500) (nullish errors []) (nullish errorMessages []).
End JiraError.

(** [AxiosError.response], as far as [handleApiError] reads it. [data] is
    [None] when the body is falsy (absent, [null], empty). *)
Module AxiosResponse.
Record t : Type := mk { status : Z; data : option JiraApiError.t }.
End AxiosResponse.

(** What a transport call may throw, by the tests [handleApiError] applies. *)
Inductive Thrown : Type :=
| AxiosError (message : string) (response : option AxiosResponse.t)
| GenericError (message : string)       (* instanceof Error, not an AxiosError *)
| NonError.                             (* any other thrown value *)

(** [n || d] on numbers: [0] is falsy. *)
Definition numOr (n : option Z) (d : Z) : Z :=
  match n with
  | Some v => if v =? 0 then d else v
  | None => d
  end.

Definition handleApiError (error : Thrown) : JiraError.t :=
  match error with
  | AxiosError axiosMessage response =>
    let status := numOr (option_map AxiosResponse.status response) 500 in
    let data := optChain response AxiosResponse.data in
    match data with
    | Some data =>
      let errorMessages := nullish (JiraApiError.errorMessages data) [] in
      let errors := nullish (JiraApiError.errors data) [] in
      let message :=
        match errorMessages with
        | m :: _ => m
        | [] =>
          match errors with
          | (k, v) :: _ => k +++ ": " +++ v
          | [] => axiosMessage
          end
        end in
      JiraError.new message (Some status) (Some errors) (Some errorMessages)
    | None => JiraError.new axiosMessage (Some status) None None
    end
  | GenericError message => JiraError.new message None None None
  | NonError => JiraError.new "Unknown error occurred" None None None
  end.

(* ================================================================= *)
(** ** Requests and replies *)

(** JSON values, for request bodies and query parameters. *)
Unset Elimination Schemes.
Inductive JValue : Type :=
| JNull
| JBool (b : bool)
| JNum (n : Z)
| JStr (s : string)
| JArr (items : list JValue)
| JObj (fields : list (string * JValue)).
Set Elimination Schemes.

Inductive Method : Type := GET | POST | PUT | DELETE.

(** [AxiosRequestConfig], of which the clients only ever set [params]. *)
Module AxiosRequestConfig.
Record t : Type := mk { params : option JValue }.
End AxiosRequestConfig.

(** One call on the Axios instance: [client.get(url, config)],
    [client.post(url, data, config)], ... *)
Module Request.
Record t : Type := mk
  { method : Method;
    url : string;
    data : option JValue;
    config : option AxiosRequestConfig.t }.
End Request.

(** Reply of [POST /search]. *)
Module SearchReply.
Record t (JiraIssue : Type) : Type := mk
  { issues : list JiraIssue; total : Z; startAt : Z; maxResults : Z }.
Arguments mk {JiraIssue} _ _ _ _.
Arguments issues {JiraIssue} _.
Arguments total {JiraIssue} _.
Arguments startAt {JiraIssue} _.
Arguments maxResults {JiraIssue} _.
End SearchReply.

(** Reply of [GET /issue/{key}/comment]. *)
Module CommentsReply.
Record t (JiraComment : Type) : Type := mk
  { comments : list JiraComment; total : Z; startAt : Z; maxResults : Z }.
Arguments mk {JiraComment} _ _ _ _.
Arguments comments {JiraComment} _.
Arguments total {JiraComment} _.
Arguments startAt {JiraComment} _.
Arguments maxResults {JiraComment} _.
End CommentsReply.

(** Reply of [GET /project/search]. *)
Module ProjectSearchReply.
Record t (JiraProject : Type) : Type := mk
  { values : list JiraProject; total : Z; isLast : bool }.
Arguments mk {JiraProject} _ _ _.
Arguments values {JiraProject} _.
Arguments total {JiraProject} _.
Arguments isLast {JiraProject} _.
End ProjectSearchReply.

(** Reply of [GET /issue/{key}/transitions]. *)
Module TransitionsReply.
Record t : Type := mk { transitions : list JiraTransition.t }.
End TransitionsReply.

(** The type argument [T] of [this.get<T>], [this.post<T>], ...: the shape
    the caller declares for the reply. *)
Inductive ReplyType : Type :=
| VoidT | TransitionsT | SearchT | CommentsT
| ProjectArrayT | ProjectSearchT | UserArrayT.

(** What a client method throws: a [JiraError] built by [handleApiError], or a
    plain [Error]. *)
Inductive Exn : Type :=
| ThrowJiraError (e : JiraError.t)
| ThrowError (message : string).

Module Session.
Record t (W : Type) : Type := mk
  { world : W;                     (* the remote service, the network, ... *)
    sent : list Request.t }.       (* calls made on the Axios instance so far *)
Arguments mk {W} _ _.
Arguments world {W} _.
Arguments sent {W} _.
End Session.

(** The double-quote character. *)
Definition dquote : string := String (ascii_of_nat 34) EmptyString.

Section Client.

(** Resource entities are opaque payloads. *)
Context {JiraIssue JiraComment JiraProject JiraUser : Type}.
Context {W : Type}.

Definition Reply (ty : ReplyType) : Type :=
  match ty with
  | VoidT => unit
  | TransitionsT => TransitionsReply.t
  | SearchT => SearchReply.t JiraIssue
  | CommentsT => CommentsReply.t JiraComment
  | ProjectArrayT => list JiraProject
  | ProjectSearchT => ProjectSearchReply.t JiraProject
  | UserArrayT => list JiraUser
  end.

(** The Axios instance: a call either throws or resolves with [response.data]
    of the declared shape, and changes the world. *)
Definition Transport : Type :=
  forall ty : ReplyType, Request.t -> W -> (Thrown + Reply ty) * W.

Variable axios : Transport.

(** An [async] method of a client. *)
Definition Client (A : Type) : Type := Session.t W -> (Exn + A) * Session.t W.

Definition ret {A : Type} (a : A) : Client A := fun s => (inr a, s).

Definition throw {A : Type} (e : Exn) : Client A := fun s => (inl e, s).

Definition bind {A B : Type} (m : Client A) (k : A -> Client B) : Client B :=
  fun s =>
    match m s with
    | (inl e, s') => (inl e, s')
    | (inr a, s') => k a s'
    end.

Notation "x <- m ;; k" := (bind m (fun x => k))
  (at level 61, m at next level, right associativity).

(** *** api/base.ts *)

(** The body shared by [get], [post], [put] and [delete]:
    [try { return (await this.client.m(...)).data } catch (error) { throw handleApiError(error) }]. *)
Definition request (ty : ReplyType) (rq : Request.t) : Client (Reply ty) :=
  fun s =>
    let sent' := Session.sent s ++ [rq] in
    match axios ty rq (Session.world s) with
    | (inl error, w') => (inl (ThrowJiraError (handleApiError error)), Session.mk w' sent')
    | (inr data, w') => (inr data, Session.mk w' sent')
    end.

Definition get (ty : ReplyType) (url : string) (config : option AxiosRequestConfig.t)
  : Client (Reply ty) :=
  request ty (Request.mk GET url None config).

Definition post (ty : ReplyType) (url : string) (data : option JValue)
  (config : option AxiosRequestConfig.t) : Client (Reply ty) :=
  request ty (Request.mk POST url data config).

Definition put (ty : ReplyType) (url : string) (data : option JValue)
  (config : option AxiosRequestConfig.t) : Client (Reply ty) :=
  request ty (Request.mk PUT url data config).

(** *** api/issues.ts *)

Definition defaultFields : list string :=
  ["summary"; "status"; "assignee"; "priority"; "issuetype"; "created"; "updated"].

Definition searchIssues (jql : string) (fields : option (list string))
  (pagination : option PaginationParams.t) : Client (PaginatedResponse.t JiraIssue) :=
  let params := createPaginationParams pagination in
  let data := JObj
    [ ("jql", JStr jql);
      ("startAt", JNum (RequiredPaginationParams.startAt params));
      ("maxResults", JNum (RequiredPaginationParams.maxResults params));
      ("fields", JArr (map JStr (nullish fields defaultFields))) ] in
  response <- post SearchT "/search" (Some data) None ;;
  ret (createPaginatedResponse
         (SearchReply.issues response) (SearchReply.total response) params).

Definition getTransitions (issueIdOrKey : string) : Client (list JiraTransition.t) :=
  response <- get TransitionsT ("/issue/" +++ issueIdOrKey +++ "/transitions") None ;;
  ret (TransitionsReply.transitions response).

Definition transitionIssue (issueIdOrKey transitionIdOrName : string) : Client unit :=
  transitions <- getTransitions issueIdOrKey ;;
  let transition :=
    find (fun t => (JiraTransition.id t =? transitionIdOrName)%string
                   || (JiraTransition.name t =? transitionIdOrName)%string)
         transitions in
  match transition with
  | None =>
    throw (ThrowError ("Transition " +++ dquote +++ transitionIdOrName +++ dquote
                       +++ " not found for issue " +++ issueIdOrKey))
  | Some transition =>
    post VoidT ("/issue/" +++ issueIdOrKey +++ "/transitions")
      (Some (JObj [("transition", JObj [("id", JStr (JiraTransition.id transition))])]))
      None
  end.

(** The query parameters [{ startAt, maxResults }], preceded by the
    operation's own entries. *)
Definition pageQuery (own : list (string * JValue)) (params : RequiredPaginationParams.t)
  : option AxiosRequestConfig.t :=
  Some (AxiosRequestConfig.mk (Some (JObj
    (own ++ [ ("startAt", JNum (RequiredPaginationParams.startAt params));
              ("maxResults", JNum (RequiredPaginationParams.maxResults params)) ])))).

Definition getComments (issueIdOrKey : string) (pagination : option PaginationParams.t)
  : Client (PaginatedResponse.t JiraComment) :=
  let params := createPaginationParams pagination in
  let config := pageQuery [] params in
  response <- get CommentsT ("/issue/" +++ issueIdOrKey +++ "/comment") config ;;
  ret (createPaginatedResponse
         (CommentsReply.comments response) (CommentsReply.total response) params).

(** [accountId ? { accountId } : { accountId: null }]: [null] and the empty
    string are falsy. *)
Definition assignIssue (issueIdOrKey : string) (accountId : option string) : Client unit :=
  let data :=
    match accountId with
    | Some (String c rest) => JObj [("accountId", JStr (String c rest))]
    | Some EmptyString => JObj [("accountId", JNull)]
    | None => JObj [("accountId", JNull)]
    end in
  put VoidT ("/issue/" +++ issueIdOrKey +++ "/assignee") (Some data) None.

(** *** api/projects.ts *)

Definition getAllProjects (pagination : option PaginationParams.t)
  : Client (PaginatedResponse.t JiraProject) :=
  let params := createPaginationParams pagination in
  let config := pageQuery [] params in
  projects <- get ProjectArrayT "/project" config ;;
  ret (createPaginatedResponse projects (Z.of_nat (List.length projects)) params).

Definition searchProjects (query : string) (pagination : option PaginationParams.t)
  : Client (PaginatedResponse.t JiraProject) :=
  let params := createPaginationParams pagination in
  let config := pageQuery [("query", JStr query)] params in
  response <- get ProjectSearchT "/project/search" config ;;
  ret (PaginatedResponse.mk
         (ProjectSearchReply.values response)
         (RequiredPaginationParams.maxResults params)
         (RequiredPaginationParams.startAt params)
         (ProjectSearchReply.total response)
         (ProjectSearchReply.isLast response)).

(** *** api/users.ts *)

Definition searchUsers (query : string) (pagination : option PaginationParams.t)
  : Client (PaginatedResponse.t JiraUser) :=
  let params := createPaginationParams pagination in
  let config := pageQuery [("query", JStr query)] params in
  users <- get UserArrayT "/user/search" config ;;
  ret (createPaginatedResponse users (Z.of_nat (List.length users)) params).

Definition getAssignableUsers (projectIdOrKey : string)
  (pagination : option PaginationParams.t) : Client (PaginatedResponse.t JiraUser) :=
  let params := createPaginationParams pagination in
  let config := pageQuery [("project", JStr projectIdOrKey)] params in
  users <- get UserArrayT "/user/assignable/search" config ;;
  ret (createPaginatedResponse users (Z.of_nat (List.length users)) params).

(** A client listing method used as the page function of [fetchAllPages], as
    in [fetchAllPages(params => jira.issues.searchIssues(jql, undefined, params))].
    The listing methods copy the cursor with [createPaginationParams] and never
    write to it. *)
Definition asPageFn {T : Type}
  (method : option PaginationParams.t -> Client (PaginatedResponse.t T))
  : PageFn T Exn (Session.t W) :=
  fun params s =>
    let '(out, s') := method (Some (asPaginationParams params)) s in
    (out, params, s').

End Client.

(* ================================================================= *)
(** ** Concrete page sources and transports

    Small instances on which the definitions above can be run. *)

(** A page source serving a prepared queue of pages, one per call (what
    [jest.fn().mockResolvedValueOnce(...)] builds); it rejects once the queue
    is empty.  It never writes to the cursor. *)
Definition queuedPages {T : Type} : PageFn T string (list (PaginatedResponse.t T)) :=
  fun params queue =>
    match queue with
    | page :: rest => (inr page, params, rest)
    | [] => (inl "no more pages", params, [])
    end.

(** Pages [1,2], [3,4], [5] of a five-item collection, fetched two at a time. *)
Definition threePages : list (PaginatedResponse.t Z) :=
  [ PaginatedResponse.mk [1; 2] 2 0 5 false;
    PaginatedResponse.mk [3; 4] 2 2 5 false;
    PaginatedResponse.mk [5] 2 4 5 true ].

(** A request for pages of two items: [{ maxResults: 2 }]. *)
Definition twoAtATime : option PaginationParams.t :=
  Some (PaginationParams.mk (Some 2) None).

(** The invocations of [queuedPages] that fetching [threePages] two at a time
    makes. *)
Definition fetch0 : Fetch Z string :=
  mkFetch (RequiredPaginationParams.mk 2 0) (RequiredPaginationParams.mk 2 0)
          (inr (PaginatedResponse.mk [1; 2] 2 0 5 false)).

Definition fetch1 : Fetch Z string :=
  mkFetch (RequiredPaginationParams.mk 2 2) (RequiredPaginationParams.mk 2 2)
          (inr (PaginatedResponse.mk [3; 4] 2 2 5 false)).

Definition fetch2 : Fetch Z string :=
  mkFetch (RequiredPaginationParams.mk 2 4) (RequiredPaginationParams.mk 2 4)
          (inr (PaginatedResponse.mk [5] 2 4 5 true)).

(** A collection that fits in one page. *)
Definition singlePage : list (PaginatedResponse.t Z) :=
  [ PaginatedResponse.mk [7; 8] 50 0 2 true ].

(** Two pages sharing items, as when the collection shifts between fetches. *)
Definition overlappingPages : list (PaginatedResponse.t Z) :=
  [ PaginatedResponse.mk [1; 2] 2 0 3 false;
    PaginatedResponse.mk [2; 1] 2 2 3 true ].

(** A queue that runs dry after one page that is not the last. *)
Definition brokenPages : list (PaginatedResponse.t Z) :=
  [ PaginatedResponse.mk [1; 2] 2 0 5 false ].

(** Canned replies of a remote service, one per endpoint shape. *)
Module Canned.
Record t : Type := mk
  { transitions : list JiraTransition.t;
    search : SearchReply.t string;
    comments : CommentsReply.t string;
    projects : list string;
    projectSearch : ProjectSearchReply.t string;
    users : list string }.
End Canned.

(** A transport that always resolves, with the canned reply of the declared
    shape. Issues, comments, projects and users are represented by their keys. *)
Definition cannedAxios : @Transport string string string string Canned.t :=
  fun ty _ w =>
    (inr (match ty return @Reply string string string string ty with
          | VoidT => tt
          | TransitionsT => TransitionsReply.mk (Canned.transitions w)
          | SearchT => Canned.search w
          | CommentsT => Canned.comments w
          | ProjectArrayT => Canned.projects w
          | ProjectSearchT => Canned.projectSearch w
          | UserArrayT => Canned.users w
          end), w).

(** A transport on which every call throws the same value. *)
Definition failingAxios (error : Thrown) : @Transport string string string string unit :=
  fun _ _ w => (inl error, w).

(** The transitions of the test-suite, and a list where a name coincides with
    another transition's id. *)
Definition todoInProgress : list JiraTransition.t :=
  [ JiraTransition.mk "10000" "To Do"; JiraTransition.mk "10001" "In Progress" ].

Definition clashingTransitions : list JiraTransition.t :=
  [ JiraTransition.mk "1" "2"; JiraTransition.mk "2" "Done" ].

Definition service (transitions : list JiraTransition.t) : Canned.t :=
  {| Canned.transitions := transitions;
     Canned.search := SearchReply.mk ["TEST-1"] 10 0 50;
     Canned.comments := CommentsReply.mk ["c1"] 1 7 9;
     Canned.projects := ["P1"; "P2"];
     Canned.projectSearch := ProjectSearchReply.mk ["P1"] 1 false;
     Canned.users := ["u1"] |}.

(** The selection rule in the words of the specification: the first candidate
    whose id equals the input, else the first whose name equals it. *)
Definition idThenName (x : string) (candidates : list JiraTransition.t)
  : option JiraTransition.t :=
  match find (fun t => (JiraTransition.id t =? x)%string) candidates with
  | Some t => Some t
  | None => find (fun t => (JiraTransition.name t =? x)%string) candidates
  end.

(** The invariant the specification states for a paginated response. *)
Definition isLastDerived {T : Type} (r : PaginatedResponse.t T) : Prop :=
  PaginatedResponse.isLast r =
  (PaginatedResponse.startAt r + Z.of_nat (List.length (PaginatedResponse.values r))
   >=? PaginatedResponse.total r).

Definition freshSession {W : Type} (w : W) : Session.t W := Session.mk w [].

(* ================================================================= *)
(** ** The remaining client methods

    [this.get<T>], [this.post<T>], ... at a reply type [R] of the caller's
    choosing: the Axios instance is then a function delivering an [R]. *)

Section TypedRequests.

Context {W R : Type}.

Definition AxiosAt : Type := Request.t -> W -> (Thrown + R) * W.

Variable client : AxiosAt.

(** The [try { ... } catch (error) { throw handleApiError(error) }] body of
    api/base.ts. *)
Definition requestAt (rq : Request.t) : @Client W R :=
  fun s =>
    let sent' := Session.sent s ++ [rq] in
    match client rq (Session.world s) with
    | (inl error, w') => (inl (ThrowJiraError (handleApiError error)), Session.mk w' sent')
    | (inr data, w') => (inr data, Session.mk w' sent')
    end.

Definition getAt (url : string) (config : option AxiosRequestConfig.t) : @Client W R :=
  requestAt (Request.mk GET url None config).




(** *** api/issues.ts *)

(** [fields.join(',')] *)
Definition joinComma (fields : list string) : string := String.concat "," fields.

Definition getIssue (issueIdOrKey : string) (fields : option (list string)) : @Client W R :=
  let config :=
    match fields with
    | Some (f :: rest) =>
      AxiosRequestConfig.mk (Some (JObj [("fields", JStr (joinComma (f :: rest)))]))
    | Some [] => AxiosRequestConfig.mk None
    | None => AxiosRequestConfig.mk None
    end in
  getAt ("/issue/" +++ issueIdOrKey) (Some config).







(** *** api/projects.ts *)



(** *** api/users.ts *)



End TypedRequests.

(** *** utils/error.ts: isJiraError *)

(** [error instanceof JiraError], on the values a client method throws. *)
Definition isJiraError (error : Exn) : bool :=
  match error with
  | ThrowJiraError _ => true
  | ThrowError _ => false
  end.

(* ================================================================= *)
(** ** utils/config.ts

    The file is present in two revisions, one authenticating with a token
    alone and one with an email and an API token.  The configuration code
    only stores and forwards numbers, so the type [number] is left abstract:
    [lit] injects the literals [3] and [30000], and [parseInt] stands for the
    JavaScript built-in (which may well return [NaN]).  [env] is
    [process.env]. *)

Module JiraClientConfig.
Record t (number : Type) : Type := mk
  { baseUrl : string; token : string;
    apiVersion : option number; timeout : option number }.
Arguments mk {number} _ _ _ _.
Arguments baseUrl {number} _.
Arguments token {number} _.
Arguments apiVersion {number} _.
Arguments timeout {number} _.
End JiraClientConfig.

Module RequiredJiraClientConfig.
Record t (number : Type) : Type := mk
  { baseUrl : string; token : string; apiVersion : number; timeout : number }.
Arguments mk {number} _ _ _ _.
Arguments baseUrl {number} _.
Arguments token {number} _.
Arguments apiVersion {number} _.
Arguments timeout {number} _.
End RequiredJiraClientConfig.

(** The revision with [email] and [apiToken]. *)
Module JiraEmailConfig.
Record t (number : Type) : Type := mk
  { baseUrl : string; email : string; apiToken : string;
    apiVersion : option number; timeout : option number }.
Arguments mk {number} _ _ _ _ _.
Arguments baseUrl {number} _.
Arguments email {number} _.
Arguments apiToken {number} _.
Arguments apiVersion {number} _.
Arguments timeout {number} _.
End JiraEmailConfig.

(** A string read from the environment is truthy when set and not empty. *)
Definition truthy (v : option string) : option string :=
  match v with
  | Some (String c rest) => Some (String c rest)
  | Some EmptyString => None
  | None => None
  end.

Section Config.

Context {number : Type}.
Variable lit : Z -> number.
Variable parseInt : string -> Z -> number.
Variable env : string -> option string.

(** The values of [DEFAULT_CONFIG]. *)
Definition DEFAULT_apiVersion : number := lit 3.
Definition DEFAULT_timeout : number := lit 30000.

(** [process.env.NAME ? parseInt(process.env.NAME, 10) : fallback] *)
Definition envNumber (name : string) (fallback : number) : number :=
  match truthy (env name) with
  | Some v => parseInt v 10
  | None => fallback
  end.

Definition createConfigFromEnv : Exn + JiraClientConfig.t number :=
  let baseUrl := env "JIRA_BASE_URL" in
  let token := env "JIRA_TOKEN" in
  let apiVersion := envNumber "JIRA_API_VERSION" DEFAULT_apiVersion in
  let timeout := envNumber "JIRA_REQUEST_TIMEOUT" DEFAULT_timeout in
  match truthy baseUrl with
  | None => inl (ThrowError "JIRA_BASE_URL environment variable is required")
  | Some baseUrl =>
    match truthy token with
    | None => inl (ThrowError "JIRA_TOKEN environment variable is required")
    | Some token =>
      inr (JiraClientConfig.mk baseUrl token (Some apiVersion) (Some timeout))
    end
  end.

Definition createConfig (config : JiraClientConfig.t number)
  : RequiredJiraClientConfig.t number :=
  RequiredJiraClientConfig.mk
    (JiraClientConfig.baseUrl config)
    (JiraClientConfig.token config)
    (nullish (JiraClientConfig.apiVersion config) DEFAULT_apiVersion)
    (nullish (JiraClientConfig.timeout config) DEFAULT_timeout).

(** A [Required<JiraClientConfig>] read as a [JiraClientConfig]. *)
Definition asJiraClientConfig (config : RequiredJiraClientConfig.t number)
  : JiraClientConfig.t number :=
  JiraClientConfig.mk
    (RequiredJiraClientConfig.baseUrl config)
    (RequiredJiraClientConfig.token config)
    (Some (RequiredJiraClientConfig.apiVersion config))
    (Some (RequiredJiraClientConfig.timeout config)).

(** The revision with [JIRA_EMAIL] and [JIRA_API_TOKEN]. *)
Definition createEmailConfigFromEnv : Exn + JiraEmailConfig.t number :=
  let baseUrl := env "JIRA_BASE_URL" in
  let email := env "JIRA_EMAIL" in
  let apiToken := env "JIRA_API_TOKEN" in
  let apiVersion := envNumber "JIRA_API_VERSION" DEFAULT_apiVersion in
  let timeout := envNumber "JIRA_REQUEST_TIMEOUT" DEFAULT_timeout in
  match truthy baseUrl with
  | None => inl (ThrowError "JIRA_BASE_URL environment variable is required")
  | Some baseUrl =>
    match truthy email with
    | None => inl (ThrowError "JIRA_EMAIL environment variable is required")
    | Some email =>
      match truthy apiToken with
      | None => inl (ThrowError "JIRA_API_TOKEN environment variable is required")
      | Some apiToken =>
        inr (JiraEmailConfig.mk baseUrl email apiToken (Some apiVersion) (Some timeout))
      end
    end
  end.

End Config.

(* ================================================================= *)
(** ** A paging server

    Lookup of a member of a JSON object, as a server reading a request does. *)
Definition jfield (key : string) (v : JValue) : option JValue :=
  match v with
  | JObj fields =>
    option_map snd (find (fun kv => (fst kv =? key)%string) fields)
  | _ => None
  end.

(** The natural number a request body gives for [key] ([0] when it gives
    none). *)
Definition bodyNat (key : string) (rq : Request.t) : nat :=
  match optChain (Request.data rq) (jfield key) with
  | Some (JNum n) => Z.to_nat n
  | _ => 0%nat
  end.

(** A server holding a collection of issues.  To a search it replies with the
    slice of the collection that starts at the requested [startAt] and has at
    most [maxResults] items, and never more than [cap]; [total] is the size of
    the collection.  It never fails. *)
Definition pagingServer {JiraIssue : Type} (cap : nat)
  : @Transport JiraIssue string string string (list JiraIssue) :=
  fun ty rq collection =>
    (inr (match ty return @Reply JiraIssue string string string ty with
          | VoidT => tt
          | TransitionsT => TransitionsReply.mk []
          | SearchT =>
            SearchReply.mk
              (firstn (Nat.min (bodyNat "maxResults" rq) cap)
                      (skipn (bodyNat "startAt" rq) collection))
              (Z.of_nat (List.length collection))
              (Z.of_nat (bodyNat "startAt" rq))
              (Z.of_nat (Nat.min (bodyNat "maxResults" rq) cap))
          | CommentsT => CommentsReply.mk [] 0 0 0
          | ProjectArrayT => []
          | ProjectSearchT => ProjectSearchReply.mk [] 0 true
          | UserArrayT => []
          end), collection).

(** What a request carries as parameters: its body when it has one, else the
    query parameters of its configuration. *)
Definition requestPayload (rq : Request.t) : option JValue :=
  match Request.data rq with
  | Some d => Some d
  | None => optChain (Request.config rq) AxiosRequestConfig.params
  end.

(** A method that makes exactly one call on the Axios instance, whatever the
    outcome, and that throws nothing but a [JiraError] made by
    [handleApiError]. *)
Definition oneNormalizedCall {W A : Type} (method : @Client W A) : Prop :=
  forall s,
    (exists rq, Session.sent (snd (method s)) = Session.sent s ++ [rq]) /\
    (forall e, fst (method s) = inl e ->
               isJiraError e = true /\
               exists thrown, e = ThrowJiraError (handleApiError thrown)).

(** A transport that gives the canned replies of [svc] at every call, without
    any state of its own. *)
Definition steadyAxios (svc : Canned.t) : @Transport string string string string unit :=
  fun ty rq w => (fst (cannedAxios ty rq svc), w).

(** A page source that always has more: every page is empty and none is the
    last. *)
Definition endlessPages : PageFn Z string unit :=
  fun params w => (inr (PaginatedResponse.mk [] 50 0 1 false), params, w).

(** An environment with a base URL and a token, and one without a token. *)
Definition envWithToken (name : string) : option string :=
  if (name =? "JIRA_BASE_URL")%string then Some "https://example.atlassian.net"
  else if (name =? "JIRA_TOKEN")%string then Some "test-token"
  else None.

Definition envWithoutToken (name : string) : option string :=
  if (name =? "JIRA_BASE_URL")%string then Some "https://example.atlassian.net"
  else if (name =? "JIRA_TOKEN")%string then Some ""
  else None.

(* ================================================================= *)
(** * Properties of the pagination helpers *)

Section FetchLoopFacts.

Context {T E W : Type}.
Variable fetchPage : PageFn T E W.

(** One iteration of the loop, as an equation. *)
Lemma fetchLoop_step (fuel : nat) (p : RequiredPaginationParams.t) (acc : list T) (s : W) :
  fetchLoop (S fuel) fetchPage p acc s =
  match fetchPage p s with
  | (inl e, p', s') => (Rejected e, [mkFetch p p' (inl e)], s')
  | (inr r, p', s') =>
    if PaginatedResponse.isLast r
    then (Resolved (acc ++ PaginatedResponse.values r), [mkFetch p p' (inr r)], s')
    else
      let rest := fetchLoop fuel fetchPage (advance p') (acc ++ PaginatedResponse.values r) s' in
      (completion rest, mkFetch p p' (inr r) :: calls rest, snd rest)
  end.
Proof.
  simpl. destruct (fetchPage p s) as [[[e | r] p'] s']; try reflexivity.
  destruct (PaginatedResponse.isLast r); try reflexivity.
  destruct (fetchLoop fuel fetchPage (advance p') (acc ++ PaginatedResponse.values r) s')
    as [[c l] s'']. reflexivity.
Qed.

(** The order in which the loop may invoke [fetchPage], starting from cursor
    [p]: used to organise the proofs below. *)
Fixpoint scheduled (p : RequiredPaginationParams.t) (l : list (Fetch T E)) : Prop :=
  match l with
  | [] => True
  | c :: rest =>
    arg c = p /\
    match outcome c with
    | inl _ => rest = []
    | inr r =>
      if PaginatedResponse.isLast r then rest = []
      else scheduled (advance (settled c)) rest
    end
  end.

Lemma fetchLoop_scheduled (fuel : nat) :
  forall p acc s, scheduled p (calls (fetchLoop fuel fetchPage p acc s)).
Proof.
  induction fuel as [| fuel IH]; intros p acc s.
  - exact I.
  - rewrite fetchLoop_step.
    destruct (fetchPage p s) as [[[e | r] p'] s'] eqn:Hf.
    + simpl. split; reflexivity.
    + destruct (PaginatedResponse.isLast r) eqn:Hl.
      * simpl. rewrite Hl. split; reflexivity.
      * unfold calls at 1. simpl. rewrite Hl. split; [reflexivity | apply IH].
Qed.

(** With fuel left, the loop starts by invoking [fetchPage] on its cursor, in
    the current state. *)
Lemma fetchLoop_head (fuel : nat) (p : RequiredPaginationParams.t) (acc : list T) (s : W) :
  exists rest,
    calls (fetchLoop (S fuel) fetchPage p acc s) =
    mkFetch p (snd (fst (fetchPage p s))) (fst (fst (fetchPage p s))) :: rest.
Proof.
  rewrite fetchLoop_step.
  destruct (fetchPage p s) as [[[e | r] p'] s']; simpl.
  - exists []. reflexivity.
  - destruct (PaginatedResponse.isLast r); simpl; eexists; reflexivity.
Qed.

Lemma scheduled_next (l : list (Fetch T E)) :
  forall p i c c',
    scheduled p l ->
    nth_error l i = Some c -> nth_error l (S i) = Some c' ->
    (exists r, outcome c = inr r /\ PaginatedResponse.isLast r = false) /\
    arg c' = advance (settled c).
Proof.
  induction l as [| x l IH]; intros p i c c' Hs Hi Hn.
  - destruct i; discriminate.
  - destruct Hs as [_ Hs]. destruct i as [| i].
    + injection Hi as ->. simpl in Hn.
      destruct (outcome c) as [e | r].
      * subst l. discriminate.
      * destruct (PaginatedResponse.isLast r) eqn:Hl.
        -- subst l. discriminate.
        -- split; [exists r; auto |].
           destruct l as [| y l]; [discriminate |].
           injection Hn as ->. exact (proj1 Hs).
    + simpl in Hi. change (nth_error l (S i) = Some c') in Hn.
      destruct (outcome x) as [e | r].
      * subst l. destruct i; discriminate.
      * destruct (PaginatedResponse.isLast r).
        -- subst l. destruct i; discriminate.
        -- exact (IH _ _ _ _ Hs Hi Hn).
Qed.

Lemma scheduled_stop (l : list (Fetch T E)) :
  forall p i c,
    scheduled p l ->
    nth_error l i = Some c ->
    match outcome c with
    | inl _ => True
    | inr r => PaginatedResponse.isLast r = true
    end ->
    List.length l = S i.
Proof.
  induction l as [| x l IH]; intros p i c Hs Hi Hend.
  - destruct i; discriminate.
  - destruct Hs as [_ Hs]. destruct i as [| i].
    + injection Hi as ->.
      destruct (outcome c) as [e | r].
      * subst l. reflexivity.
      * rewrite Hend in Hs. subst l. reflexivity.
    + simpl in Hi. simpl. f_equal.
      destruct (outcome x) as [e | r].
      * subst l. destruct i; discriminate.
      * destruct (PaginatedResponse.isLast r).
        -- subst l. destruct i; discriminate.
        -- exact (IH _ _ _ Hs Hi Hend).
Qed.

(** After a page with [isLast = false] the loop goes round again. *)
Lemma fetchLoop_continues (fuel : nat) :
  forall p acc s i c r,
    nth_error (calls (fetchLoop fuel fetchPage p acc s)) i = Some c ->
    outcome c = inr r -> PaginatedResponse.isLast r = false ->
    (S i < fuel)%nat ->
    exists c', nth_error (calls (fetchLoop fuel fetchPage p acc s)) (S i) = Some c'.
Proof.
  induction fuel as [| fuel IH]; intros p acc s i c r Hi Ho Hl Hlt; [lia |].
  rewrite fetchLoop_step in *.
  destruct (fetchPage p s) as [[[e | r0] p'] s'].
  - destruct i as [| i]; simpl in Hi.
    + injection Hi as <-. discriminate.
    + destruct i; discriminate.
  - destruct (PaginatedResponse.isLast r0) eqn:Hl0.
    + destruct i as [| i]; simpl in Hi.
      * injection Hi as <-. simpl in Ho. congruence.
      * destruct i; discriminate.
    + unfold calls at 1 in Hi. unfold calls at 1. simpl in Hi |- *.
      destruct i as [| i].
      * destruct fuel as [| fuel]; [lia |].
        destruct (fetchLoop_head fuel (advance p') (acc ++ PaginatedResponse.values r0) s')
          as [rest ->]. eexists. reflexivity.
      * simpl in Hi. apply (IH _ _ _ _ _ _ Hi Ho Hl). lia.
Qed.

(** The invocations recorded for a read-only page function leave the cursor
    as it was passed. *)
Lemma fetchLoop_readsOnly (fuel : nat) :
  readsOnly fetchPage ->
  forall p acc s c,
    In c (calls (fetchLoop fuel fetchPage p acc s)) -> settled c = arg c.
Proof.
  intros Hro. induction fuel as [| fuel IH]; intros p acc s c Hin.
  - destruct Hin.
  - rewrite fetchLoop_step in Hin. specialize (Hro p s).
    destruct (fetchPage p s) as [[[e | r] p'] s']; simpl in Hro; subst p'.
    + destruct Hin as [<- | []]. reflexivity.
    + destruct (PaginatedResponse.isLast r).
      * destruct Hin as [<- | []]. reflexivity.
      * destruct Hin as [<- | Hin]; [reflexivity | exact (IH _ _ _ _ Hin)].
Qed.

(** The result of a resolved run is the accumulator followed by the items of
    the pages fetched, in order. *)
Lemma fetchLoop_resolved (fuel : nat) :
  forall p acc s xs,
    completion (fetchLoop fuel fetchPage p acc s) = Resolved xs ->
    xs = acc ++ List.concat (map PaginatedResponse.values
                            (pagesOf (calls (fetchLoop fuel fetchPage p acc s)))).
Proof.
  induction fuel as [| fuel IH]; intros p acc s xs Hc.
  - discriminate.
  - rewrite fetchLoop_step in *.
    destruct (fetchPage p s) as [[[e | r] p'] s'].
    + discriminate.
    + destruct (PaginatedResponse.isLast r).
      * injection Hc as <-. simpl. rewrite app_nil_r. reflexivity.
      * unfold completion at 1 in Hc. simpl in Hc.
        apply IH in Hc. rewrite Hc. unfold calls at 2. simpl.
        rewrite <- app_assoc. reflexivity.
Qed.

(** How a run ends is decided by the last recorded invocation. *)
Lemma fetchLoop_last (fuel : nat) :
  forall p acc s pre c,
    calls (fetchLoop fuel fetchPage p acc s) = pre ++ [c] ->
    completion (fetchLoop fuel fetchPage p acc s) =
    match outcome c with
    | inl e => Rejected e
    | inr r =>
      if PaginatedResponse.isLast r
      then Resolved (acc ++ List.concat (map PaginatedResponse.values
                                        (pagesOf (pre ++ [c]))))
      else Pending
    end.
Proof.
  induction fuel as [| fuel IH]; intros p acc s pre c Hc.
  - destruct pre; discriminate.
  - rewrite fetchLoop_step in *.
    destruct (fetchPage p s) as [[[e | r] p'] s'].
    + destruct pre as [| x pre]; simpl in Hc.
      * injection Hc as <-. reflexivity.
      * destruct pre; discriminate.
    + destruct (PaginatedResponse.isLast r) eqn:Hl.
      * destruct pre as [| x pre]; simpl in Hc.
        -- injection Hc as <-. simpl. rewrite Hl. simpl. rewrite app_nil_r. reflexivity.
        -- destruct pre; discriminate.
      * unfold calls at 1 in Hc. unfold completion at 1. simpl in Hc |- *.
        destruct pre as [| x pre]; simpl in Hc.
        -- injection Hc as <- Hnil.
           destruct fuel as [| fuel].
           ++ simpl. rewrite Hl. reflexivity.
           ++ destruct (fetchLoop_head fuel (advance p') (acc ++ PaginatedResponse.values r) s')
                as [rest Hr]. rewrite Hr in Hnil. discriminate.
        -- injection Hc as <- Hrest.
           rewrite (IH _ _ _ _ _ Hrest).
           destruct (outcome c) as [e | r']; [reflexivity |].
           destruct (PaginatedResponse.isLast r'); [| reflexivity].
           simpl. rewrite <- app_assoc. reflexivity.
Qed.

(** A failed invocation is the last one. *)
Lemma scheduled_failure_last (l : list (Fetch T E)) :
  forall p c e,
    scheduled p l -> In c l -> outcome c = inl e ->
    exists pre, l = pre ++ [c].
Proof.
  induction l as [| x l IH]; intros p c e Hs Hin Ho.
  - destruct Hin.
  - destruct Hs as [_ Hs]. destruct Hin as [-> | Hin].
    + rewrite Ho in Hs. subst l. exists []. reflexivity.
    + destruct (outcome x) as [e' | r].
      * subst l. destruct Hin.
      * destruct (PaginatedResponse.isLast r).
        -- subst l. destruct Hin.
        -- destruct (IH _ _ _ Hs Hin Ho) as [pre ->]. exists (x :: pre). reflexivity.
Qed.

(** A rejection of the loop is the rejection of its last invocation. *)
Lemma fetchLoop_rejected (fuel : nat) :
  forall p acc s e,
    completion (fetchLoop fuel fetchPage p acc s) = Rejected e ->
    exists pre c,
      calls (fetchLoop fuel fetchPage p acc s) = pre ++ [c] /\ outcome c = inl e.
Proof.
  induction fuel as [| fuel IH]; intros p acc s e Hc.
  - discriminate.
  - rewrite fetchLoop_step in *.
    destruct (fetchPage p s) as [[[e0 | r] p'] s'].
    + injection Hc as <-. exists [], (mkFetch p p' (inl e0)). split; reflexivity.
    + destruct (PaginatedResponse.isLast r).
      * discriminate.
      * unfold completion at 1 in Hc. simpl in Hc.
        destruct (IH _ _ _ _ Hc) as (pre & c & Hcalls & Ho).
        exists (mkFetch p p' (inr r) :: pre), c. unfold calls at 1. simpl.
        rewrite Hcalls. split; [reflexivity | exact Ho].
Qed.

End FetchLoopFacts.

(** ** createPaginationParams *)

(** C8. [createPaginationParams] returns the input's [startAt] when present and
    [0] otherwise, and the input's [maxResults] when present and [50]
    otherwise; it is a function of its argument alone, so two calls on equal
    inputs (in particular on the empty object, or on no argument at all) give
    the same cursor [{maxResults: 50, startAt: 0}]; and normalising an already
    normalised cursor returns it unchanged. *)
Theorem createPaginationParams_defaults_idempotent :
  (forall params,
      RequiredPaginationParams.startAt (createPaginationParams params) =
      match params with
      | Some {| PaginationParams.startAt := Some v |} => v
      | _ => 0
      end /\
      RequiredPaginationParams.maxResults (createPaginationParams params) =
      match params with
      | Some {| PaginationParams.maxResults := Some v |} => v
      | _ => 50
      end) /\
  (forall p q, p = q -> createPaginationParams p = createPaginationParams q) /\
  createPaginationParams (Some (PaginationParams.mk None None)) =
    RequiredPaginationParams.mk 50 0 /\
  createPaginationParams None = RequiredPaginationParams.mk 50 0 /\
  (forall params,
      createPaginationParams (Some (asPaginationParams (createPaginationParams params))) =
      createPaginationParams params).
Proof.
  repeat split.
  - destruct params as [[m [v |]] |]; reflexivity.
  - destruct params as [[[v |] a] |]; reflexivity.
  - intros p q ->. reflexivity.
Qed.

(** ** fetchAllPages *)

(** C2. [fetchAllPages] first invokes [fetchPage] with the normalised initial
    cursor.  A further invocation takes place after a page whose [isLast] is
    false, and only then; it is made with [maxResults] unchanged and [startAt]
    increased by the cursor's own [maxResults] (the page's item count plays no
    part), counted from the cursor as [fetchPage] left it, which for a page
    function that does not write to its argument is the cursor it was invoked
    with.  Nothing is fetched after a page whose [isLast] is true; a source
    whose first page has [isLast] true is fetched exactly once. *)
Theorem fetchAllPages_fetch_schedule {T E W : Type} :
  forall (fuel : nat) (fetchPage : PageFn T E W) (params : option PaginationParams.t) (s : W),
    let run := fetchAllPages fuel fetchPage params s in
    (fuel <> 0%nat ->
     exists c, nth_error (calls run) 0 = Some c /\
               arg c = createPaginationParams params) /\
    (forall i c c',
        nth_error (calls run) i = Some c ->
        nth_error (calls run) (S i) = Some c' ->
        (exists r, outcome c = inr r /\ PaginatedResponse.isLast r = false) /\
        RequiredPaginationParams.startAt (arg c') =
          RequiredPaginationParams.startAt (settled c)
          + RequiredPaginationParams.maxResults (settled c) /\
        RequiredPaginationParams.maxResults (arg c') =
          RequiredPaginationParams.maxResults (settled c)) /\
    (readsOnly fetchPage -> forall c, In c (calls run) -> settled c = arg c) /\
    (forall i c r,
        nth_error (calls run) i = Some c ->
        outcome c = inr r -> PaginatedResponse.isLast r = false ->
        (S i < fuel)%nat ->
        exists c', nth_error (calls run) (S i) = Some c') /\
    (forall i c r,
        nth_error (calls run) i = Some c ->
        outcome c = inr r -> PaginatedResponse.isLast r = true ->
        List.length (calls run) = S i) /\
    (forall r p' s',
        fetchPage (createPaginationParams params) s = (inr r, p', s') ->
        PaginatedResponse.isLast r = true ->
        fuel <> 0%nat ->
        run = (Resolved (PaginatedResponse.values r),
               [mkFetch (createPaginationParams params) p' (inr r)], s')).
Proof.
  intros fuel fetchPage params s run. subst run. unfold fetchAllPages.
  repeat apply conj.
  - intros Hf. destruct fuel as [| fuel]; [congruence |].
    destruct (fetchLoop_head fetchPage fuel (createPaginationParams params) [] s)
      as [rest ->].
    eexists. split; reflexivity.
  - intros i c c' Hi Hn.
    destruct (scheduled_next _ _ _ _ _ (fetchLoop_scheduled fetchPage fuel _ _ _) Hi Hn)
      as [Hr Ha].
    rewrite Ha. repeat split; auto.
  - intros Hro c Hin. exact (fetchLoop_readsOnly fetchPage fuel Hro _ _ _ _ Hin).
  - intros i c r Hi Ho Hl Hlt.
    exact (fetchLoop_continues fetchPage fuel _ _ _ _ _ _ Hi Ho Hl Hlt).
  - intros i c r Hi Ho Hl.
    apply (scheduled_stop _ _ _ _ (fetchLoop_scheduled fetchPage fuel _ _ _) Hi).
    rewrite Ho. exact Hl.
  - intros r p' s' Hf Hl Hfuel. destruct fuel as [| fuel]; [congruence |].
    rewrite fetchLoop_step, Hf, Hl. reflexivity.
Qed.

Lemma queuedPages_readsOnly {T : Type} : readsOnly (@queuedPages T).
Proof. intros p [| page rest]; reflexivity. Defined.

Lemma fetchAllPages_fetch_schedule_witness :
  (exists c, nth_error (calls (fetchAllPages 3 queuedPages twoAtATime threePages)) 0 = Some c /\
             arg c = RequiredPaginationParams.mk 2 0) /\
  ((exists r, outcome fetch0 = inr r /\ PaginatedResponse.isLast r = false) /\
   RequiredPaginationParams.startAt (arg fetch1) = 0 + 2 /\
   RequiredPaginationParams.maxResults (arg fetch1) = 2) /\
  (forall c, In c (calls (fetchAllPages 3 queuedPages twoAtATime threePages)) ->
             settled c = arg c) /\
  (exists c', nth_error (calls (fetchAllPages 3 queuedPages twoAtATime threePages)) 1 = Some c') /\
  List.length (calls (fetchAllPages 3 queuedPages twoAtATime threePages)) = 3%nat /\
  fetchAllPages 1 queuedPages None singlePage =
    (Resolved [7; 8],
     [mkFetch (RequiredPaginationParams.mk 50 0) (RequiredPaginationParams.mk 50 0)
              (inr (PaginatedResponse.mk [7; 8] 50 0 2 true))], []).
Proof.
  pose proof (fetchAllPages_fetch_schedule 3 queuedPages twoAtATime threePages)
    as (H1 & H2 & H3 & H4 & H5 & _).
  pose proof (fetchAllPages_fetch_schedule 1 queuedPages None singlePage)
    as (_ & _ & _ & _ & _ & H6).
  split; [exact (H1 ltac:(discriminate)) |].
  split; [exact (H2 0%nat fetch0 fetch1 eq_refl eq_refl) |].
  split; [exact (H3 queuedPages_readsOnly) |].
  split; [exact (H4 0%nat fetch0 _ eq_refl eq_refl eq_refl ltac:(lia)) |].
  split; [exact (H5 2%nat fetch2 _ eq_refl eq_refl eq_refl) |].
  exact (H6 _ _ _ eq_refl eq_refl ltac:(discriminate)).
Defined.

(** C3. The sequence [fetchAllPages] returns is the concatenation, in fetch
    order, of the [values] of the pages fetched: within-page order is kept and
    nothing is removed, duplicates included.  It returns as soon as a page
    with [isLast] true arrives.  Over the pages [1,2], [3,4] (both with
    [isLast] false) and [5] ([isLast] true) it returns [1,2,3,4,5]. *)
Theorem fetchAllPages_concatenates {T E W : Type} :
  (forall (fuel : nat) (fetchPage : PageFn T E W) (params : option PaginationParams.t) (s : W),
      let run := fetchAllPages fuel fetchPage params s in
      (forall xs,
          completion run = Resolved xs ->
          xs = List.concat (map PaginatedResponse.values (pagesOf (calls run)))) /\
      (forall pre c r,
          calls run = pre ++ [c] ->
          outcome c = inr r -> PaginatedResponse.isLast r = true ->
          completion run =
          Resolved (List.concat (map PaginatedResponse.values (pagesOf (calls run)))))) /\
  (forall fuel params,
      (3 <= fuel)%nat ->
      completion (fetchAllPages fuel queuedPages params threePages) =
      Resolved [1; 2; 3; 4; 5]) /\
  completion (fetchAllPages 2 queuedPages twoAtATime overlappingPages) =
  Resolved [1; 2; 2; 1].
Proof.
  split; [| split].
  - intros fuel fetchPage params s run. subst run. unfold fetchAllPages. split.
    + intros xs Hc. exact (fetchLoop_resolved fetchPage fuel _ _ _ _ Hc).
    + intros pre c r Hcalls Ho Hl.
      rewrite (fetchLoop_last fetchPage fuel _ _ _ _ _ Hcalls), Ho, Hl, Hcalls.
      reflexivity.
  - intros fuel params Hfuel.
    destruct fuel as [| [| [| fuel]]]; try lia. reflexivity.
  - reflexivity.
Qed.

Lemma fetchAllPages_concatenates_witness :
  List.concat (map PaginatedResponse.values
                   (pagesOf (calls (fetchAllPages 3 queuedPages twoAtATime threePages)))) =
    [1; 2; 3; 4; 5] /\
  completion (fetchAllPages 3 queuedPages twoAtATime threePages) =
    Resolved (List.concat (map PaginatedResponse.values
                (pagesOf (calls (fetchAllPages 3 queuedPages twoAtATime threePages))))) /\
  completion (fetchAllPages 4 queuedPages None threePages) = Resolved [1; 2; 3; 4; 5].
Proof.
  pose proof (@fetchAllPages_concatenates Z string (list (PaginatedResponse.t Z)))
    as (Hgen & Hex & _).
  pose proof (Hgen 3%nat queuedPages twoAtATime threePages) as (H1 & H2).
  split; [symmetry; exact (H1 [1; 2; 3; 4; 5] eq_refl) |].
  split; [exact (H2 [fetch0; fetch1] fetch2 _ eq_refl eq_refl eq_refl) |].
  exact (Hex 4%nat None ltac:(lia)).
Defined.

(** C6. If an invocation of [fetchPage] fails, [fetchAllPages] fails with that
    very error: the failed invocation is the last one, no sequence is
    returned (the items of the pages fetched before are dropped with the
    accumulator), and the error is passed on as it is.  Conversely every
    failure of [fetchAllPages] is the failure of its last [fetchPage]. *)
Theorem fetchAllPages_propagates_failure {T E W : Type} :
  forall (fuel : nat) (fetchPage : PageFn T E W) (params : option PaginationParams.t) (s : W),
    let run := fetchAllPages fuel fetchPage params s in
    (forall c e,
        In c (calls run) -> outcome c = inl e ->
        completion run = Rejected e /\
        (exists pre, calls run = pre ++ [c]) /\
        (forall xs, completion run <> Resolved xs)) /\
    (forall e,
        completion run = Rejected e ->
        exists pre c, calls run = pre ++ [c] /\ outcome c = inl e).
Proof.
  intros fuel fetchPage params s run. subst run. unfold fetchAllPages. split.
  - intros c e Hin Ho.
    destruct (scheduled_failure_last _ _ _ _ (fetchLoop_scheduled fetchPage fuel _ _ _) Hin Ho)
      as [pre Hcalls].
    pose proof (fetchLoop_last fetchPage fuel _ _ _ _ _ Hcalls) as Hc.
    rewrite Ho in Hc. rewrite Hc.
    split; [reflexivity | split; [exists pre; exact Hcalls | discriminate]].
  - intros e Hc. exact (fetchLoop_rejected fetchPage fuel _ _ _ _ Hc).
Qed.

Lemma fetchAllPages_propagates_failure_witness :
  In (mkFetch (RequiredPaginationParams.mk 2 2) (RequiredPaginationParams.mk 2 2)
              (inl "no more pages"))
     (calls (fetchAllPages 5 queuedPages twoAtATime brokenPages)) /\
  completion (fetchAllPages 5 queuedPages twoAtATime brokenPages) =
    Rejected "no more pages" /\
  (exists pre c,
      calls (fetchAllPages 5 queuedPages twoAtATime brokenPages) = pre ++ [c] /\
      outcome c = inl "no more pages").
Proof.
  pose proof (fetchAllPages_propagates_failure 5 queuedPages twoAtATime brokenPages)
    as (H1 & H2).
  split; [right; left; reflexivity |].
  split.
  - exact (proj1 (H1 _ "no more pages" (or_intror (or_introl eq_refl)) eq_refl)).
  - exact (H2 "no more pages" eq_refl).
Defined.

(* ================================================================= *)
(** * Properties of the resource clients *)

Section ClientFacts.

Context {JiraIssue JiraComment JiraProject JiraUser W : Type}.
Variable axios : @Transport JiraIssue JiraComment JiraProject JiraUser W.

(** A method that awaits one request and reshapes the reply with [f]. *)
Lemma roundTrip_run {A : Type} (ty : ReplyType) (rq : Request.t)
  (f : @Reply JiraIssue JiraComment JiraProject JiraUser ty -> A) (s : Session.t W) :
  bind (request axios ty rq) (fun d => ret (f d)) s =
  match axios ty rq (Session.world s) with
  | (inl error, w') =>
    (inl (ThrowJiraError (handleApiError error)), Session.mk w' (Session.sent s ++ [rq]))
  | (inr reply, w') =>
    (inr (f reply), Session.mk w' (Session.sent s ++ [rq]))
  end.
Proof.
  unfold bind, request, ret.
  destruct (axios ty rq (Session.world s)) as [[error | reply] w']; reflexivity.
Qed.

Lemma roundTrip_resolved {A : Type} (ty : ReplyType) (rq : Request.t)
  (f : @Reply JiraIssue JiraComment JiraProject JiraUser ty -> A)
  (s s' : Session.t W) (r : A) :
  bind (request axios ty rq) (fun d => ret (f d)) s = (inr r, s') ->
  exists reply w',
    axios ty rq (Session.world s) = (inr reply, w') /\ r = f reply.
Proof.
  rewrite roundTrip_run.
  destruct (axios ty rq (Session.world s)) as [[error | reply] w']; intros H.
  - discriminate.
  - injection H as <- _. exists reply, w'. split; reflexivity.
Qed.

(** [Array.prototype.find] returns the first element satisfying the test. *)
Lemma find_first {A : Type} (f : A -> bool) (pre : list A) (t : A) (post : list A) :
  (forall u, In u pre -> f u = false) -> f t = true ->
  find f (pre ++ t :: post) = Some t.
Proof.
  induction pre as [| x pre IH]; intros Hpre Ht; simpl.
  - rewrite Ht. reflexivity.
  - rewrite (Hpre x (or_introl eq_refl)). apply IH; auto.
    intros u Hu. apply Hpre. right. exact Hu.
Qed.

Lemma find_nowhere {A : Type} (f : A -> bool) (l : list A) :
  (forall u, In u l -> f u = false) -> find f l = None.
Proof.
  induction l as [| x l IH]; intros Hl; simpl.
  - reflexivity.
  - rewrite (Hl x (or_introl eq_refl)). apply IH.
    intros u Hu. apply Hl. right. exact Hu.
Qed.

(** Every request is recorded, whether it resolves or throws. *)
Lemma request_sent (ty : ReplyType) (rq : Request.t) (s : Session.t W) :
  Session.sent (snd (request axios ty rq s)) = Session.sent s ++ [rq].
Proof.
  unfold request.
  destruct (axios ty rq (Session.world s)) as [[error | reply] w']; reflexivity.
Qed.

End ClientFacts.

(** The comparison of [createPaginatedResponse], for a total equal to the
    number of items. *)
Lemma isLast_of_own_length (startAt : Z) (n : nat) :
  0 <= startAt -> (startAt + Z.of_nat n >=? Z.of_nat n) = true.
Proof. intros H. apply Z.geb_le. lia. Qed.

Lemma createPaginatedResponse_isLastDerived {T : Type}
  (values : list T) (total : Z) (params : RequiredPaginationParams.t) :
  isLastDerived (createPaginatedResponse values total params).
Proof. reflexivity. Qed.

(** ** Listing and search operations *)

(** C9. [searchIssues] and [getComments] fill [startAt] and [maxResults] of
    the response from the normalised request parameters; the [startAt] and
    [maxResults] the server reports are not read.  [isLast] is computed from
    the request's [startAt], the number of items returned and the total the
    server reports.  Each operation is one request; when it fails the
    normalised error is thrown. *)
Theorem searchIssues_getComments_use_request_cursor
  {JiraIssue JiraComment JiraProject JiraUser W : Type} :
  forall (axios : @Transport JiraIssue JiraComment JiraProject JiraUser W)
         (pagination : option PaginationParams.t) (s : Session.t W),
    (forall jql fields,
        exists rq,
          Request.method rq = POST /\ Request.url rq = "/search" /\
          searchIssues axios jql fields pagination s =
          match axios SearchT rq (Session.world s) with
          | (inl error, w') =>
            (inl (ThrowJiraError (handleApiError error)),
             Session.mk w' (Session.sent s ++ [rq]))
          | (inr reply, w') =>
            (inr (PaginatedResponse.mk
                    (SearchReply.issues reply)
                    (RequiredPaginationParams.maxResults (createPaginationParams pagination))
                    (RequiredPaginationParams.startAt (createPaginationParams pagination))
                    (SearchReply.total reply)
                    (RequiredPaginationParams.startAt (createPaginationParams pagination)
                     + Z.of_nat (List.length (SearchReply.issues reply))
                     >=? SearchReply.total reply)),
             Session.mk w' (Session.sent s ++ [rq]))
          end) /\
    (forall issueIdOrKey,
        exists rq,
          Request.method rq = GET /\
          Request.url rq = "/issue/" +++ issueIdOrKey +++ "/comment" /\
          getComments axios issueIdOrKey pagination s =
          match axios CommentsT rq (Session.world s) with
          | (inl error, w') =>
            (inl (ThrowJiraError (handleApiError error)),
             Session.mk w' (Session.sent s ++ [rq]))
          | (inr reply, w') =>
            (inr (PaginatedResponse.mk
                    (CommentsReply.comments reply)
                    (RequiredPaginationParams.maxResults (createPaginationParams pagination))
                    (RequiredPaginationParams.startAt (createPaginationParams pagination))
                    (CommentsReply.total reply)
                    (RequiredPaginationParams.startAt (createPaginationParams pagination)
                     + Z.of_nat (List.length (CommentsReply.comments reply))
                     >=? CommentsReply.total reply)),
             Session.mk w' (Session.sent s ++ [rq]))
          end).
Proof.
  intros axios pagination s. split.
  - intros jql fields. eexists. split; [| split].
    3: { unfold searchIssues, post. rewrite roundTrip_run. reflexivity. }
    all: reflexivity.
  - intros key. eexists. split; [| split].
    3: { unfold getComments, get. rewrite roundTrip_run. reflexivity. }
    all: reflexivity.
Qed.

(** The server of [service] reports [startAt: 7, maxResults: 9] for comments;
    the response carries the request's defaults. *)
Example getComments_ignores_reported_cursor :
  fst (getComments cannedAxios "TEST-1" None (freshSession (service []))) =
  inr (PaginatedResponse.mk ["c1"] 50 0 1 true).
Proof. reflexivity. Qed.

(** C7. [getAllProjects], [searchUsers] and [getAssignableUsers], whose
    endpoints reply with a bare array, return a response whose [total] is the
    length of that array and whose [isLast] is true, for every requested
    [maxResults] and every requested [startAt >= 0]. *)
Theorem bare_array_listings_are_last
  {JiraIssue JiraComment JiraProject JiraUser W : Type} :
  forall (axios : @Transport JiraIssue JiraComment JiraProject JiraUser W)
         (pagination : option PaginationParams.t) (s : Session.t W),
    0 <= RequiredPaginationParams.startAt (createPaginationParams pagination) ->
    (exists rq,
        Request.method rq = GET /\ Request.url rq = "/project" /\
        getAllProjects axios pagination s =
        match axios ProjectArrayT rq (Session.world s) with
        | (inl error, w') =>
          (inl (ThrowJiraError (handleApiError error)),
           Session.mk w' (Session.sent s ++ [rq]))
        | (inr projects, w') =>
          (inr (PaginatedResponse.mk projects
                  (RequiredPaginationParams.maxResults (createPaginationParams pagination))
                  (RequiredPaginationParams.startAt (createPaginationParams pagination))
                  (Z.of_nat (List.length projects)) true),
           Session.mk w' (Session.sent s ++ [rq]))
        end) /\
    (forall query,
        exists rq,
          Request.method rq = GET /\ Request.url rq = "/user/search" /\
          searchUsers axios query pagination s =
          match axios UserArrayT rq (Session.world s) with
          | (inl error, w') =>
            (inl (ThrowJiraError (handleApiError error)),
             Session.mk w' (Session.sent s ++ [rq]))
          | (inr users, w') =>
            (inr (PaginatedResponse.mk users
                    (RequiredPaginationParams.maxResults (createPaginationParams pagination))
                    (RequiredPaginationParams.startAt (createPaginationParams pagination))
                    (Z.of_nat (List.length users)) true),
             Session.mk w' (Session.sent s ++ [rq]))
          end) /\
    (forall projectIdOrKey,
        exists rq,
          Request.method rq = GET /\ Request.url rq = "/user/assignable/search" /\
          getAssignableUsers axios projectIdOrKey pagination s =
          match axios UserArrayT rq (Session.world s) with
          | (inl error, w') =>
            (inl (ThrowJiraError (handleApiError error)),
             Session.mk w' (Session.sent s ++ [rq]))
          | (inr users, w') =>
            (inr (PaginatedResponse.mk users
                    (RequiredPaginationParams.maxResults (createPaginationParams pagination))
                    (RequiredPaginationParams.startAt (createPaginationParams pagination))
                    (Z.of_nat (List.length users)) true),
             Session.mk w' (Session.sent s ++ [rq]))
          end).
Proof.
  intros axios pagination s Hstart.
  split; [| split]; [| intros query | intros key].
  - exists (Request.mk GET "/project" None
                       (pageQuery [] (createPaginationParams pagination))).
    split; [reflexivity | split; [reflexivity |]].
    unfold getAllProjects, get. rewrite roundTrip_run.
    destruct (axios ProjectArrayT _ (Session.world s)) as [[error | items] w'];
      [reflexivity |].
    unfold createPaginatedResponse.
    rewrite (isLast_of_own_length _ _ Hstart). reflexivity.
  - exists (Request.mk GET "/user/search" None
                       (pageQuery [("query", JStr query)] (createPaginationParams pagination))).
    split; [reflexivity | split; [reflexivity |]].
    unfold searchUsers, get. rewrite roundTrip_run.
    destruct (axios UserArrayT _ (Session.world s)) as [[error | items] w'];
      [reflexivity |].
    unfold createPaginatedResponse.
    rewrite (isLast_of_own_length _ _ Hstart). reflexivity.
  - exists (Request.mk GET "/user/assignable/search" None
                       (pageQuery [("project", JStr key)] (createPaginationParams pagination))).
    split; [reflexivity | split; [reflexivity |]].
    unfold getAssignableUsers, get. rewrite roundTrip_run.
    destruct (axios UserArrayT _ (Session.world s)) as [[error | items] w'];
      [reflexivity |].
    unfold createPaginatedResponse.
    rewrite (isLast_of_own_length _ _ Hstart). reflexivity.
Qed.

Lemma bare_array_listings_are_last_witness :
  0 <= RequiredPaginationParams.startAt (createPaginationParams twoAtATime) /\
  fst (getAllProjects cannedAxios twoAtATime (freshSession (service []))) =
    inr (PaginatedResponse.mk ["P1"; "P2"] 2 0 2 true) /\
  fst (searchUsers cannedAxios "john" twoAtATime (freshSession (service []))) =
    inr (PaginatedResponse.mk ["u1"] 2 0 1 true) /\
  fst (getAssignableUsers cannedAxios "PROJECT" twoAtATime (freshSession (service []))) =
    inr (PaginatedResponse.mk ["u1"] 2 0 1 true).
Proof.
  assert (H0 : 0 <= RequiredPaginationParams.startAt (createPaginationParams twoAtATime))
    by (simpl; lia).
  pose proof (bare_array_listings_are_last cannedAxios twoAtATime
                (freshSession (service [])) H0) as (H1 & H2 & H3).
  split; [exact H0 |].
  split; [| split].
  - destruct H1 as (rq & _ & _ & ->). reflexivity.
  - destruct (H2 "john") as (rq & _ & _ & ->). reflexivity.
  - destruct (H3 "PROJECT") as (rq & _ & _ & ->). reflexivity.
Defined.

(** C1, as the code has it.  Every response returned by [searchIssues],
    [getComments], [getAllProjects], [searchUsers] or [getAssignableUsers]
    satisfies [isLast = (startAt + values.length >= total)]: these five build
    the response with [createPaginatedResponse], which computes [isLast] from
    the other fields.  [searchProjects] builds its response by hand and hands
    on the [isLast], [values] and [total] of the server's reply, with
    [startAt] and [maxResults] taken from the normalised request. *)
Theorem listing_isLast_derived_or_forwarded
  {JiraIssue JiraComment JiraProject JiraUser W : Type} :
  forall (axios : @Transport JiraIssue JiraComment JiraProject JiraUser W)
         (pagination : option PaginationParams.t) (s : Session.t W),
    (forall jql fields r s',
        searchIssues axios jql fields pagination s = (inr r, s') -> isLastDerived r) /\
    (forall issueIdOrKey r s',
        getComments axios issueIdOrKey pagination s = (inr r, s') -> isLastDerived r) /\
    (forall r s',
        getAllProjects axios pagination s = (inr r, s') -> isLastDerived r) /\
    (forall query r s',
        searchUsers axios query pagination s = (inr r, s') -> isLastDerived r) /\
    (forall projectIdOrKey r s',
        getAssignableUsers axios projectIdOrKey pagination s = (inr r, s') ->
        isLastDerived r) /\
    (forall query,
        exists rq,
          Request.method rq = GET /\ Request.url rq = "/project/search" /\
          searchProjects axios query pagination s =
          match axios ProjectSearchT rq (Session.world s) with
          | (inl error, w') =>
            (inl (ThrowJiraError (handleApiError error)),
             Session.mk w' (Session.sent s ++ [rq]))
          | (inr reply, w') =>
            (inr (PaginatedResponse.mk
                    (ProjectSearchReply.values reply)
                    (RequiredPaginationParams.maxResults (createPaginationParams pagination))
                    (RequiredPaginationParams.startAt (createPaginationParams pagination))
                    (ProjectSearchReply.total reply)
                    (ProjectSearchReply.isLast reply)),
             Session.mk w' (Session.sent s ++ [rq]))
          end).
Proof.
  intros axios pagination s.
  repeat apply conj.
  - intros jql fields r s' H. unfold searchIssues, post in H.
    apply roundTrip_resolved in H. destruct H as (reply & w' & _ & ->).
    apply createPaginatedResponse_isLastDerived.
  - intros key r s' H. unfold getComments, get in H.
    apply roundTrip_resolved in H. destruct H as (reply & w' & _ & ->).
    apply createPaginatedResponse_isLastDerived.
  - intros r s' H. unfold getAllProjects, get in H.
    apply roundTrip_resolved in H. destruct H as (reply & w' & _ & ->).
    apply createPaginatedResponse_isLastDerived.
  - intros query r s' H. unfold searchUsers, get in H.
    apply roundTrip_resolved in H. destruct H as (reply & w' & _ & ->).
    apply createPaginatedResponse_isLastDerived.
  - intros key r s' H. unfold getAssignableUsers, get in H.
    apply roundTrip_resolved in H. destruct H as (reply & w' & _ & ->).
    apply createPaginatedResponse_isLastDerived.
  - intros query.
    exists (Request.mk GET "/project/search" None
                       (pageQuery [("query", JStr query)] (createPaginationParams pagination))).
    split; [reflexivity | split; [reflexivity |]].
    unfold searchProjects, get. rewrite roundTrip_run. reflexivity.
Qed.

Lemma listing_isLast_derived_or_forwarded_witness :
  isLastDerived (PaginatedResponse.mk ["TEST-1"] 50 0 10 false) /\
  isLastDerived (PaginatedResponse.mk ["c1"] 50 0 1 true) /\
  isLastDerived (PaginatedResponse.mk ["P1"; "P2"] 50 0 2 true) /\
  isLastDerived (PaginatedResponse.mk ["u1"] 50 0 1 true) /\
  fst (searchProjects cannedAxios "Marketing" None (freshSession (service []))) =
    inr (PaginatedResponse.mk ["P1"] 50 0 1 false).
Proof.
  pose proof (listing_isLast_derived_or_forwarded cannedAxios None
                (freshSession (service []))) as (H1 & H2 & H3 & H4 & H5 & H6).
  split; [exact (H1 "project = TEST" None _ _ eq_refl) |].
  split; [exact (H2 "TEST-1" _ _ eq_refl) |].
  split; [exact (H3 _ _ eq_refl) |].
  split; [exact (H4 "john" _ _ eq_refl) |].
  destruct (H6 "Marketing") as (rq & _ & _ & ->). reflexivity.
Defined.

(** C1 as stated fails for [searchProjects]: when the server replies with one
    project, [total: 1] and [isLast: false], the response to a request from
    offset 0 has [isLast] false, although [0 + 1 >= 1]. *)
Lemma searchProjects_isLast_counterexample :
  exists r s',
    searchProjects cannedAxios "Marketing" None (freshSession (service [])) = (inr r, s') /\
    PaginatedResponse.isLast r = false /\
    (PaginatedResponse.startAt r + Z.of_nat (List.length (PaginatedResponse.values r))
     >=? PaginatedResponse.total r) = true /\
    ~ isLastDerived r.
Proof.
  eexists. eexists. split; [reflexivity |].
  split; [reflexivity | split; [reflexivity |]].
  unfold isLastDerived. simpl. discriminate.
Qed.

(** ** transitionIssue *)

(** C4, as the code has it.  Given the candidate list fetched for the issue,
    [transitionIssue] selects the first candidate, in list order, whose id or
    whose name equals the input (exact, case-sensitive string equality), and
    posts a transition request carrying that candidate's id, after which
    nothing else is sent.  If no candidate's id or name equals the input it
    throws [Transition "<input>" not found for issue <key>] and the only
    request made is the fetch of the candidates. *)
Theorem transitionIssue_first_match
  {JiraIssue JiraComment JiraProject JiraUser W : Type} :
  forall (axios : @Transport JiraIssue JiraComment JiraProject JiraUser W)
         (issueIdOrKey transitionIdOrName : string) (s : Session.t W)
         (candidates : list JiraTransition.t) (w1 : W),
    let getRq :=
      Request.mk GET ("/issue/" +++ issueIdOrKey +++ "/transitions") None None in
    let s1 := Session.mk w1 (Session.sent s ++ [getRq]) in
    axios TransitionsT getRq (Session.world s) =
      (inr (TransitionsReply.mk candidates), w1) ->
    (forall pre t post,
        candidates = pre ++ t :: post ->
        (forall u, In u pre ->
                   JiraTransition.id u <> transitionIdOrName /\
                   JiraTransition.name u <> transitionIdOrName) ->
        JiraTransition.id t = transitionIdOrName \/
        JiraTransition.name t = transitionIdOrName ->
        let postRq :=
          Request.mk POST ("/issue/" +++ issueIdOrKey +++ "/transitions")
            (Some (JObj [("transition", JObj [("id", JStr (JiraTransition.id t))])]))
            None in
        transitionIssue axios issueIdOrKey transitionIdOrName s =
          request axios VoidT postRq s1 /\
        Session.sent (snd (transitionIssue axios issueIdOrKey transitionIdOrName s)) =
          Session.sent s ++ [getRq; postRq]) /\
    ((forall u, In u candidates ->
                JiraTransition.id u <> transitionIdOrName /\
                JiraTransition.name u <> transitionIdOrName) ->
     transitionIssue axios issueIdOrKey transitionIdOrName s =
       (inl (ThrowError ("Transition " +++ dquote +++ transitionIdOrName +++ dquote
                         +++ " not found for issue " +++ issueIdOrKey)),
        s1)).
Proof.
  intros axios key x s candidates w1 getRq s1 Hget.
  assert (Hfetch : getTransitions axios key s = (inr candidates, s1)).
  { unfold getTransitions, get. rewrite roundTrip_run.
    fold getRq. rewrite Hget. reflexivity. }
  split.
  - intros pre t post Hsplit Hpre Ht postRq.
    assert (Hrun : transitionIssue axios key x s = request axios VoidT postRq s1).
    { unfold transitionIssue, bind. rewrite Hfetch. rewrite Hsplit.
      rewrite find_first; [reflexivity | |].
      - intros u Hu. destruct (Hpre u Hu) as [Hid Hname].
        apply orb_false_intro; apply String.eqb_neq; assumption.
      - apply orb_true_intro.
        destruct Ht as [Ht | Ht]; [left | right]; apply String.eqb_eq; exact Ht. }
    split; [exact Hrun |].
    rewrite Hrun.
    refine (eq_trans (request_sent axios VoidT postRq s1) _).
    subst s1. simpl. rewrite <- app_assoc. reflexivity.
  - intros Hnone. unfold transitionIssue, bind. rewrite Hfetch.
    rewrite find_nowhere; [reflexivity |].
    intros u Hu. destruct (Hnone u Hu) as [Hid Hname].
    apply orb_false_intro; apply String.eqb_neq; assumption.
Qed.

(** The transitions of the test-suite: ["10001"] and ["In Progress"] both
    select the second candidate; ["Done"] is not found and nothing is posted. *)
Lemma transitionIssue_first_match_witness :
  Session.sent (snd (transitionIssue cannedAxios "TEST-1" "10001"
                       (freshSession (service todoInProgress)))) =
    [ Request.mk GET "/issue/TEST-1/transitions" None None;
      Request.mk POST "/issue/TEST-1/transitions"
        (Some (JObj [("transition", JObj [("id", JStr "10001")])])) None ] /\
  Session.sent (snd (transitionIssue cannedAxios "TEST-1" "In Progress"
                       (freshSession (service todoInProgress)))) =
    [ Request.mk GET "/issue/TEST-1/transitions" None None;
      Request.mk POST "/issue/TEST-1/transitions"
        (Some (JObj [("transition", JObj [("id", JStr "10001")])])) None ] /\
  transitionIssue cannedAxios "TEST-1" "Done" (freshSession (service todoInProgress)) =
    (inl (ThrowError ("Transition " +++ dquote +++ "Done" +++ dquote
                      +++ " not found for issue TEST-1")),
     Session.mk (service todoInProgress)
                [Request.mk GET "/issue/TEST-1/transitions" None None]).
Proof.
  assert (Hpre : forall x u,
             x <> "To Do" -> x <> "10000" ->
             In u [JiraTransition.mk "10000" "To Do"] ->
             JiraTransition.id u <> x /\ JiraTransition.name u <> x).
  { intros x u H1 H2 [<- | []]. split; intros H; symmetry in H; contradiction. }
  split; [| split].
  - exact (proj2 (proj1 (transitionIssue_first_match cannedAxios "TEST-1" "10001"
                           (freshSession (service todoInProgress)) todoInProgress
                           (service todoInProgress) eq_refl)
                    [JiraTransition.mk "10000" "To Do"]
                    (JiraTransition.mk "10001" "In Progress") [] eq_refl
                    (fun u => Hpre "10001" u ltac:(discriminate) ltac:(discriminate))
                    (or_introl eq_refl))).
  - exact (proj2 (proj1 (transitionIssue_first_match cannedAxios "TEST-1" "In Progress"
                           (freshSession (service todoInProgress)) todoInProgress
                           (service todoInProgress) eq_refl)
                    [JiraTransition.mk "10000" "To Do"]
                    (JiraTransition.mk "10001" "In Progress") [] eq_refl
                    (fun u => Hpre "In Progress" u ltac:(discriminate) ltac:(discriminate))
                    (or_intror eq_refl))).
  - apply (proj2 (transitionIssue_first_match cannedAxios "TEST-1" "Done"
                    (freshSession (service todoInProgress)) todoInProgress
                    (service todoInProgress) eq_refl)).
    intros u [<- | [<- | []]]; split; discriminate.
Defined.

(** C4 as stated fails when a candidate's name equals the input and stands
    before the candidate whose id equals it.  With candidates
    [{id: "1", name: "2"}, {id: "2", name: "Done"}] and input ["2"], id-first
    resolution selects the second candidate, but the request posted carries
    the id ["1"] of the first. *)
Lemma transitionIssue_id_priority_counterexample :
  idThenName "2" clashingTransitions = Some (JiraTransition.mk "2" "Done") /\
  Session.sent (snd (transitionIssue cannedAxios "TEST-1" "2"
                       (freshSession (service clashingTransitions)))) =
    [ Request.mk GET "/issue/TEST-1/transitions" None None;
      Request.mk POST "/issue/TEST-1/transitions"
        (Some (JObj [("transition", JObj [("id", JStr "1")])])) None ] /\
  ~ (forall t,
        idThenName "2" clashingTransitions = Some t ->
        In (Request.mk POST "/issue/TEST-1/transitions"
              (Some (JObj [("transition", JObj [("id", JStr (JiraTransition.id t))])]))
              None)
           (Session.sent (snd (transitionIssue cannedAxios "TEST-1" "2"
                                 (freshSession (service clashingTransitions)))))).
Proof.
  split; [reflexivity | split; [reflexivity |]].
  intros H. specialize (H _ eq_refl). simpl in H.
  destruct H as [H | [H | []]]; discriminate H.
Qed.

(** ** assignIssue *)

(** C10. [assignIssue] puts the body [{accountId}] when [accountId] is a
    non-empty string, and the unassign body [{accountId: null}] when it is
    [null] and also when it is the empty string. *)
Theorem assignIssue_body
  {JiraIssue JiraComment JiraProject JiraUser W : Type} :
  forall (axios : @Transport JiraIssue JiraComment JiraProject JiraUser W)
         (issueIdOrKey : string) (s : Session.t W),
    (forall accountId,
        accountId <> "" ->
        assignIssue axios issueIdOrKey (Some accountId) s =
        request axios VoidT
          (Request.mk PUT ("/issue/" +++ issueIdOrKey +++ "/assignee")
             (Some (JObj [("accountId", JStr accountId)])) None) s) /\
    assignIssue axios issueIdOrKey None s =
      request axios VoidT
        (Request.mk PUT ("/issue/" +++ issueIdOrKey +++ "/assignee")
           (Some (JObj [("accountId", JNull)])) None) s /\
    assignIssue axios issueIdOrKey (Some "") s =
      request axios VoidT
        (Request.mk PUT ("/issue/" +++ issueIdOrKey +++ "/assignee")
           (Some (JObj [("accountId", JNull)])) None) s.
Proof.
  intros axios key s. split; [| split]; try reflexivity.
  intros [| c rest] Hne; [congruence | reflexivity].
Qed.

Lemma assignIssue_body_witness :
  "user123" <> "" /\
  Session.sent (snd (assignIssue cannedAxios "TEST-1" (Some "user123")
                       (freshSession (service [])))) =
    [ Request.mk PUT "/issue/TEST-1/assignee"
        (Some (JObj [("accountId", JStr "user123")])) None ].
Proof.
  split; [discriminate |].
  rewrite (proj1 (assignIssue_body cannedAxios "TEST-1" (freshSession (service [])))
             "user123" ltac:(discriminate)).
  reflexivity.
Defined.

(** ** handleApiError *)

(** The [||] on the status: a response whose status is [0] is given [500]. *)
Lemma handleApiError_status_zero (message : string) (data : option JiraApiError.t) :
  JiraError.status
    (handleApiError (AxiosError message (Some (AxiosResponse.mk 0 data)))) = 500.
Proof. destruct data; reflexivity. Qed.

(** C5. [handleApiError] maps every thrown value to a [JiraError]; it is a
    total function and raises nothing.  For an HTTP error with a response
    body, the message is the first of the body's [errorMessages] when there
    is one, else ["field: message"] from the first entry of the body's
    [errors] when there is one, else the transport error's own message, and
    the body's [errorMessages] and [errors] are kept on the result.  For a
    generic [Error] the message is its message; for anything else it is
    ["Unknown error occurred"].  The status is that of the HTTP response, and
    500 when there is no response.  A body
    [{errorMessages: ["Issue does not exist"], errors: {}}] with status 404
    gives status 404, message ["Issue does not exist"], that one-element list
    and an empty field-error map. *)
Theorem handleApiError_normalises :
  (forall axiosMessage response body,
      AxiosResponse.data response = Some body ->
      AxiosResponse.status response <> 0 ->
      let e := handleApiError (AxiosError axiosMessage (Some response)) in
      let errorMessages := nullish (JiraApiError.errorMessages body) [] in
      let errors := nullish (JiraApiError.errors body) [] in
      JiraError.status e = AxiosResponse.status response /\
      JiraError.errorMessages e = errorMessages /\
      JiraError.errors e = errors /\
      (forall m rest, errorMessages = m :: rest -> JiraError.message e = m) /\
      (forall field msg rest,
          errorMessages = [] -> errors = (field, msg) :: rest ->
          JiraError.message e = field +++ ": " +++ msg) /\
      (errorMessages = [] -> errors = [] -> JiraError.message e = axiosMessage)) /\
  (forall axiosMessage response,
      AxiosResponse.data response = None ->
      AxiosResponse.status response <> 0 ->
      handleApiError (AxiosError axiosMessage (Some response)) =
      JiraError.mk axiosMessage (AxiosResponse.status response) [] []) /\
  (forall axiosMessage,
      handleApiError (AxiosError axiosMessage None) =
      JiraError.mk axiosMessage 500 [] []) /\
  (forall message,
      handleApiError (GenericError message) = JiraError.mk message 500 [] []) /\
  handleApiError NonError = JiraError.mk "Unknown error occurred" 500 [] [] /\
  (forall axiosMessage,
      handleApiError
        (AxiosError axiosMessage
           (Some (AxiosResponse.mk 404
                    (Some (JiraApiError.mk (Some ["Issue does not exist"]) (Some []))))))
      = JiraError.mk "Issue does not exist" 404 [] ["Issue does not exist"]).
Proof.
  repeat apply conj; try reflexivity.
  - intros axiosMessage [status data] body Hdata Hnz. simpl in Hdata, Hnz. subst data.
    cbv zeta. unfold handleApiError, JiraError.new, numOr. simpl.
    destruct (Z.eqb_spec status 0) as [| _]; [contradiction |].
    repeat apply conj; try reflexivity.
    + intros m rest ->. reflexivity.
    + intros field msg rest -> ->. reflexivity.
    + intros -> ->. reflexivity.
  - intros axiosMessage [status data] Hdata Hnz. simpl in Hdata, Hnz. subst data.
    unfold handleApiError, JiraError.new, numOr. simpl.
    destruct (Z.eqb_spec status 0); [contradiction | reflexivity].
Qed.

Lemma handleApiError_normalises_witness :
  JiraError.message
    (handleApiError
       (AxiosError "Request failed with status code 400"
          (Some (AxiosResponse.mk 400
                   (Some (JiraApiError.mk (Some [])
                            (Some [("summary", "Summary is required")])))))))
  = "summary: Summary is required" /\
  JiraError.message
    (handleApiError
       (AxiosError "Request failed with status code 404"
          (Some (AxiosResponse.mk 404
                   (Some (JiraApiError.mk (Some ["Issue does not exist"; "second"])
                            None))))))
  = "Issue does not exist" /\
  JiraError.message
    (handleApiError
       (AxiosError "Request failed with status code 502"
          (Some (AxiosResponse.mk 502 (Some (JiraApiError.mk None None))))))
  = "Request failed with status code 502" /\
  handleApiError
    (AxiosError "Request failed with status code 503"
       (Some (AxiosResponse.mk 503 None)))
  = JiraError.mk "Request failed with status code 503" 503 [] [].
Proof.
  destruct handleApiError_normalises as (Hbody & Hnobody & _).
  split; [| split; [| split]].
  - exact (proj1 (proj2 (proj2 (proj2 (proj2
             (Hbody "Request failed with status code 400"
                (AxiosResponse.mk 400
                   (Some (JiraApiError.mk (Some [])
                            (Some [("summary", "Summary is required")]))))
                _ eq_refl ltac:(discriminate))))))
             "summary" "Summary is required" [] eq_refl eq_refl).
  - exact (proj1 (proj2 (proj2 (proj2
             (Hbody "Request failed with status code 404"
                (AxiosResponse.mk 404
                   (Some (JiraApiError.mk (Some ["Issue does not exist"; "second"]) None)))
                _ eq_refl ltac:(discriminate)))))
             "Issue does not exist" ["second"] eq_refl).
  - exact (proj2 (proj2 (proj2 (proj2 (proj2
             (Hbody "Request failed with status code 502"
                (AxiosResponse.mk 502 (Some (JiraApiError.mk None None)))
                _ eq_refl ltac:(discriminate))))))
             eq_refl eq_refl).
  - exact (Hnobody "Request failed with status code 503"
             (AxiosResponse.mk 503 None) eq_refl ltac:(discriminate)).
Defined.

(** ** Client methods as page functions *)

(** A listing method wrapped as in the README never writes to the cursor of
    [fetchAllPages], so successive fetches are made at offsets [maxResults]
    apart. *)
Lemma asPageFn_readsOnly {W T : Type}
  (method : option PaginationParams.t -> @Client W (PaginatedResponse.t T)) :
  readsOnly (asPageFn method).
Proof.
  intros p s. unfold asPageFn.
  destruct (method (Some (asPaginationParams p)) s) as [out s']. reflexivity.
Qed.

(** Aggregating [searchIssues] over a server that reports ten issues and
    returns one per request: the second fetch is made at offset 50. *)
Example fetchAllPages_over_searchIssues :
  map arg (calls (fetchAllPages 2
                    (asPageFn (searchIssues cannedAxios "project = TEST" None))
                    None (freshSession (service [])))) =
  [ RequiredPaginationParams.mk 50 0; RequiredPaginationParams.mk 50 50 ].
Proof. reflexivity. Qed.

(* ================================================================= *)
(** * Further properties of fetchAllPages *)

Section FetchLoopMore.

Context {T E W : Type}.
Variable fetchPage : PageFn T E W.

(** The cursor of the k-th invocation, for a page function that leaves the
    cursor alone. *)
Lemma fetchLoop_offsets (fuel : nat) :
  readsOnly fetchPage ->
  forall p acc s k c,
    nth_error (calls (fetchLoop fuel fetchPage p acc s)) k = Some c ->
    arg c =
    RequiredPaginationParams.mk
      (RequiredPaginationParams.maxResults p)
      (RequiredPaginationParams.startAt p
       + Z.of_nat k * RequiredPaginationParams.maxResults p).
Proof.
  intros Hro. induction fuel as [| fuel IH]; intros p acc s k c Hk.
  - destruct k; discriminate.
  - rewrite fetchLoop_step in Hk. specialize (Hro p s).
    destruct (fetchPage p s) as [[out p'] s']. simpl in Hro. subst p'.
    assert (Hhead : forall l, nth_error (mkFetch p p out :: l) 0 = Some c ->
                              arg c = RequiredPaginationParams.mk
                                        (RequiredPaginationParams.maxResults p)
                                        (RequiredPaginationParams.startAt p
                                         + Z.of_nat 0 * RequiredPaginationParams.maxResults p)).
    { intros l H. injection H as <-. destruct p as [m st]. simpl. f_equal. lia. }
    destruct out as [e | r].
    + destruct k as [| k]; [exact (Hhead _ Hk) | destruct k; discriminate].
    + destruct (PaginatedResponse.isLast r).
      * destruct k as [| k]; [exact (Hhead _ Hk) | destruct k; discriminate].
      * unfold calls at 1 in Hk. simpl in Hk.
        destruct k as [| k]; [exact (Hhead [] Hk) |].
        simpl in Hk. rewrite (IH _ _ _ _ _ Hk).
        destruct p as [m st]. unfold advance.
        cbn [RequiredPaginationParams.maxResults RequiredPaginationParams.startAt].
        f_equal. rewrite Nat2Z.inj_succ. ring.
Qed.

(** A loop whose pages are never the last one is still running after any
    number of iterations. *)
Lemma fetchLoop_unbounded (fuel : nat) :
  (forall p s, exists r p' s',
        fetchPage p s = (inr r, p', s') /\ PaginatedResponse.isLast r = false) ->
  forall p acc s,
    completion (fetchLoop fuel fetchPage p acc s) = Pending /\
    List.length (calls (fetchLoop fuel fetchPage p acc s)) = fuel.
Proof.
  intros Hmore. induction fuel as [| fuel IH]; intros p acc s.
  - split; reflexivity.
  - rewrite fetchLoop_step.
    destruct (Hmore p s) as (r & p' & s' & -> & ->).
    unfold completion at 1, calls at 1. simpl.
    destruct (IH (advance p') (acc ++ PaginatedResponse.values r) s') as [-> ->].
    split; reflexivity.
Qed.

(** Once the loop has settled, more fuel changes nothing. *)
Lemma fetchLoop_settled (fuel : nat) :
  forall p acc s,
    completion (fetchLoop fuel fetchPage p acc s) <> Pending ->
    forall extra,
      fetchLoop (fuel + extra) fetchPage p acc s = fetchLoop fuel fetchPage p acc s.
Proof.
  induction fuel as [| fuel IH]; intros p acc s Hc extra.
  - exfalso. apply Hc. reflexivity.
  - change (S fuel + extra)%nat with (S (fuel + extra)).
    rewrite !fetchLoop_step. rewrite fetchLoop_step in Hc.
    destruct (fetchPage p s) as [[[e | r] p'] s']; [reflexivity |].
    destruct (PaginatedResponse.isLast r); [reflexivity |].
    unfold completion at 1 in Hc. simpl in Hc.
    rewrite (IH _ _ _ Hc extra). reflexivity.
Qed.

End FetchLoopMore.

(** X1. For a page function that does not write to the cursor, the k-th
    invocation (counting from 0) is made with the initial [maxResults] and
    with [startAt] equal to the initial [startAt] plus k times [maxResults]. *)
Theorem fetchAllPages_kth_offset {T E W : Type} :
  forall (fuel : nat) (fetchPage : PageFn T E W) (params : option PaginationParams.t)
         (s : W) (k : nat) (c : Fetch T E),
    readsOnly fetchPage ->
    nth_error (calls (fetchAllPages fuel fetchPage params s)) k = Some c ->
    RequiredPaginationParams.maxResults (arg c) =
      RequiredPaginationParams.maxResults (createPaginationParams params) /\
    RequiredPaginationParams.startAt (arg c) =
      RequiredPaginationParams.startAt (createPaginationParams params)
      + Z.of_nat k * RequiredPaginationParams.maxResults (createPaginationParams params).
Proof.
  intros fuel fetchPage params s k c Hro Hk. unfold fetchAllPages in Hk.
  rewrite (fetchLoop_offsets fetchPage fuel Hro _ _ _ _ _ Hk).
  split; reflexivity.
Qed.

Lemma fetchAllPages_kth_offset_witness :
  nth_error (calls (fetchAllPages 3 queuedPages twoAtATime threePages)) 2 = Some fetch2 /\
  RequiredPaginationParams.maxResults (arg fetch2) = 2 /\
  RequiredPaginationParams.startAt (arg fetch2) = 0 + Z.of_nat 2 * 2.
Proof.
  split; [reflexivity |].
  exact (fetchAllPages_kth_offset 3 queuedPages twoAtATime threePages 2 fetch2
           queuedPages_readsOnly eq_refl).
Defined.

(** X2. There is no cap on the number of iterations: when every page comes
    back with [isLast] false (and no fetch fails), then after any number of
    iterations the loop has made that many fetches and has not returned. *)
Theorem fetchAllPages_has_no_iteration_cap {T E W : Type} :
  forall (fetchPage : PageFn T E W),
    (forall p s, exists r p' s',
          fetchPage p s = (inr r, p', s') /\ PaginatedResponse.isLast r = false) ->
    forall (fuel : nat) (params : option PaginationParams.t) (s : W),
      completion (fetchAllPages fuel fetchPage params s) = Pending /\
      List.length (calls (fetchAllPages fuel fetchPage params s)) = fuel.
Proof.
  intros fetchPage Hmore fuel params s. unfold fetchAllPages.
  exact (fetchLoop_unbounded fetchPage fuel Hmore _ _ _).
Qed.

Lemma fetchAllPages_has_no_iteration_cap_witness :
  completion (fetchAllPages 1000 endlessPages None tt) = Pending /\
  List.length (calls (fetchAllPages 1000 endlessPages None tt)) = 1000%nat.
Proof.
  apply (fetchAllPages_has_no_iteration_cap endlessPages).
  intros p s. exists (PaginatedResponse.mk [] 50 0 1 false), p, s.
  split; reflexivity.
Defined.

(* ================================================================= *)
(** * Aggregating searchIssues over a paging server *)

Section OverPagingServer.

Context {JiraIssue : Type}.
Variable cap : nat.
Variable jql : string.
Variable fields : option (list string).

Local Abbreviation searchPages :=
  (asPageFn (searchIssues (@pagingServer JiraIssue cap) jql fields)).

(** What one fetch gives: the server reads the cursor out of the request
    body that [searchIssues] builds, and [searchIssues] wraps the slice. *)
Lemma searchIssues_page (p : RequiredPaginationParams.t)
  (s : Session.t (list JiraIssue)) :
  exists s',
    searchPages p s =
    (inr (createPaginatedResponse
            (firstn (Nat.min (Z.to_nat (RequiredPaginationParams.maxResults p)) cap)
                    (skipn (Z.to_nat (RequiredPaginationParams.startAt p))
                           (Session.world s)))
            (Z.of_nat (List.length (Session.world s))) p),
     p, s') /\
    Session.world s' = Session.world s.
Proof.
  destruct p as [m st]. unfold asPageFn, searchIssues, post.
  rewrite roundTrip_run. simpl. eexists. split; reflexivity.
Qed.

Variable items : list JiraIssue.

(** Pages no smaller than asked for: the loop collects the rest of the
    collection. *)
Lemma fetchLoop_collects_rest (m : nat) :
  (1 <= m)%nat -> (m <= cap)%nat ->
  forall fuel k acc s,
    Session.world s = items ->
    (List.length items - k < fuel)%nat ->
    completion (fetchLoop fuel searchPages
                  (RequiredPaginationParams.mk (Z.of_nat m) (Z.of_nat k)) acc s) =
    Resolved (acc ++ skipn k items).
Proof.
  intros Hm Hcap. induction fuel as [| fuel IH]; intros k acc s Hw Hfuel; [lia |].
  rewrite fetchLoop_step.
  destruct (searchIssues_page (RequiredPaginationParams.mk (Z.of_nat m) (Z.of_nat k)) s)
    as (s' & -> & Hw').
  cbn [RequiredPaginationParams.maxResults RequiredPaginationParams.startAt].
  rewrite !Nat2Z.id, Hw, (Nat.min_l m cap Hcap).
  unfold createPaginatedResponse.
  cbn [PaginatedResponse.isLast PaginatedResponse.values
       RequiredPaginationParams.maxResults RequiredPaginationParams.startAt].
  rewrite length_firstn, length_skipn.
  destruct (Z.of_nat k + Z.of_nat (Nat.min m (List.length items - k))
            >=? Z.of_nat (List.length items)) eqn:Hlast.
  - apply Z.geb_le in Hlast.
    rewrite firstn_all2; [reflexivity | rewrite length_skipn; lia].
  - rewrite Z.geb_leb in Hlast. apply Z.leb_gt in Hlast.
    unfold completion at 1. cbn [fst].
    unfold advance.
    cbn [RequiredPaginationParams.maxResults RequiredPaginationParams.startAt].
    rewrite <- Nat2Z.inj_add.
    fold (completion (fetchLoop fuel searchPages
                        (RequiredPaginationParams.mk (Z.of_nat m) (Z.of_nat (k + m)))
                        (acc ++ firstn m (skipn k items)) s')).
    rewrite IH; [| rewrite Hw', Hw; reflexivity | lia].
    rewrite <- app_assoc. f_equal. f_equal.
    rewrite <- (firstn_skipn m (skipn k items)) at 2.
    f_equal. rewrite skipn_skipn. f_equal. lia.
Qed.

(** Pages cut short by the server: some of the collection is lost. *)
Lemma fetchLoop_loses_items (m : nat) :
  (cap < m)%nat ->
  forall fuel k acc s,
    Session.world s = items ->
    (List.length items - k < fuel)%nat ->
    exists xs,
      completion (fetchLoop fuel searchPages
                    (RequiredPaginationParams.mk (Z.of_nat m) (Z.of_nat k)) acc s) =
      Resolved xs /\
      (List.length xs <= List.length acc + (List.length items - k))%nat /\
      ((cap < List.length items - k)%nat ->
       (List.length xs < List.length acc + (List.length items - k))%nat).
Proof.
  intros Hcap. induction fuel as [| fuel IH]; intros k acc s Hw Hfuel; [lia |].
  rewrite fetchLoop_step.
  destruct (searchIssues_page (RequiredPaginationParams.mk (Z.of_nat m) (Z.of_nat k)) s)
    as (s' & -> & Hw').
  cbn [RequiredPaginationParams.maxResults RequiredPaginationParams.startAt].
  rewrite !Nat2Z.id, Hw, (Nat.min_r m cap) by lia.
  unfold createPaginatedResponse.
  cbn [PaginatedResponse.isLast PaginatedResponse.values
       RequiredPaginationParams.maxResults RequiredPaginationParams.startAt].
  rewrite length_firstn, length_skipn.
  destruct (Z.of_nat k + Z.of_nat (Nat.min cap (List.length items - k))
            >=? Z.of_nat (List.length items)) eqn:Hlast.
  - apply Z.geb_le in Hlast. eexists. split; [reflexivity |].
    rewrite length_app, length_firstn, length_skipn. lia.
  - rewrite Z.geb_leb in Hlast. apply Z.leb_gt in Hlast.
    unfold completion at 1. cbn [fst].
    unfold advance.
    cbn [RequiredPaginationParams.maxResults RequiredPaginationParams.startAt].
    rewrite <- Nat2Z.inj_add.
    fold (completion (fetchLoop fuel searchPages
                        (RequiredPaginationParams.mk (Z.of_nat m) (Z.of_nat (k + m)))
                        (acc ++ firstn cap (skipn k items)) s')).
    destruct (IH (k + m)%nat (acc ++ firstn cap (skipn k items)) s')
      as (xs & -> & Hle & _); [rewrite Hw', Hw; reflexivity | lia |].
    exists xs. split; [reflexivity |].
    rewrite length_app, length_firstn, length_skipn in Hle. lia.
Qed.

(** A page size of zero: the cursor never moves. *)
Lemma fetchLoop_zero_page_size :
  forall fuel k acc s,
    Session.world s = items ->
    (k < List.length items)%nat ->
    completion (fetchLoop fuel searchPages
                  (RequiredPaginationParams.mk 0 (Z.of_nat k)) acc s) = Pending /\
    List.length (calls (fetchLoop fuel searchPages
                          (RequiredPaginationParams.mk 0 (Z.of_nat k)) acc s)) = fuel.
Proof.
  induction fuel as [| fuel IH]; intros k acc s Hw Hk; [split; reflexivity |].
  rewrite fetchLoop_step.
  destruct (searchIssues_page (RequiredPaginationParams.mk 0 (Z.of_nat k)) s)
    as (s' & -> & Hw').
  cbn [RequiredPaginationParams.maxResults RequiredPaginationParams.startAt].
  change (Z.to_nat 0) with 0%nat. rewrite Nat.min_0_l.
  unfold createPaginatedResponse.
  cbn [firstn List.length PaginatedResponse.isLast PaginatedResponse.values
       RequiredPaginationParams.maxResults RequiredPaginationParams.startAt].
  rewrite Hw.
  destruct (Z.of_nat k + Z.of_nat 0 >=? Z.of_nat (List.length items)) eqn:Hlast.
  - apply Z.geb_le in Hlast. lia.
  - unfold advance.
    cbn [RequiredPaginationParams.maxResults RequiredPaginationParams.startAt].
    rewrite Z.add_0_r. cbv zeta.
    destruct (IH k (acc ++ []) s') as [Hc Hl]; [rewrite Hw', Hw; reflexivity | exact Hk |].
    destruct (fetchLoop fuel searchPages (RequiredPaginationParams.mk 0 (Z.of_nat k))
                (acc ++ []) s') as [[c l] s''].
    unfold completion, calls in *. simpl in *. subst. split; reflexivity.
Qed.

End OverPagingServer.

Lemma createPaginationParams_asPaginationParams (p : RequiredPaginationParams.t) :
  createPaginationParams (Some (asPaginationParams p)) = p.
Proof. destruct p; reflexivity. Qed.

Lemma cursor_of_nat (p : RequiredPaginationParams.t) :
  0 <= RequiredPaginationParams.maxResults p ->
  0 <= RequiredPaginationParams.startAt p ->
  p = RequiredPaginationParams.mk
        (Z.of_nat (Z.to_nat (RequiredPaginationParams.maxResults p)))
        (Z.of_nat (Z.to_nat (RequiredPaginationParams.startAt p))).
Proof.
  intros Hm Hs. destruct p as [m st]. simpl in *. rewrite !Z2Nat.id by assumption.
  reflexivity.
Qed.

(** X3. Aggregating [searchIssues] with [fetchAllPages] over a server that
    serves the requested slices of a collection (pages of at least
    [maxResults] items allowed, [maxResults >= 1], [startAt >= 0]) returns
    the collection from offset [startAt] on: every item once, in order.  It
    has returned within [length + 1] iterations. *)
Theorem fetchAllPages_searchIssues_complete {JiraIssue : Type} :
  forall (cap : nat) (jql : string) (fields : option (list string))
         (params : option PaginationParams.t) (items : list JiraIssue) (fuel : nat),
    1 <= RequiredPaginationParams.maxResults (createPaginationParams params) ->
    0 <= RequiredPaginationParams.startAt (createPaginationParams params) ->
    (Z.to_nat (RequiredPaginationParams.maxResults (createPaginationParams params)) <= cap)%nat ->
    (List.length items < fuel)%nat ->
    completion (fetchAllPages fuel
                  (asPageFn (searchIssues (pagingServer cap) jql fields))
                  params (freshSession items)) =
    Resolved (skipn (Z.to_nat (RequiredPaginationParams.startAt (createPaginationParams params)))
                    items).
Proof.
  intros cap jql fields params items fuel Hm Hs Hcap Hfuel. unfold fetchAllPages.
  set (p0 := createPaginationParams params) in *.
  set (m := Z.to_nat (RequiredPaginationParams.maxResults p0)) in *.
  set (k := Z.to_nat (RequiredPaginationParams.startAt p0)) in *.
  assert (Hp : p0 = RequiredPaginationParams.mk (Z.of_nat m) (Z.of_nat k))
    by (apply cursor_of_nat; lia).
  rewrite Hp.
  assert (Hm' : (1 <= m)%nat) by lia.
  rewrite (fetchLoop_collects_rest cap jql fields items m Hm' Hcap fuel k []
             (freshSession items) eq_refl); [reflexivity | lia].
Qed.

Lemma fetchAllPages_searchIssues_complete_witness :
  completion (fetchAllPages 6
                (asPageFn (searchIssues (pagingServer 100) "project = TEST" None))
                twoAtATime (freshSession ["T-1"; "T-2"; "T-3"; "T-4"; "T-5"])) =
  Resolved ["T-1"; "T-2"; "T-3"; "T-4"; "T-5"].
Proof.
  exact (fetchAllPages_searchIssues_complete 100 "project = TEST" None twoAtATime
           ["T-1"; "T-2"; "T-3"; "T-4"; "T-5"] 6
           ltac:(simpl; lia) ltac:(simpl; lia) ltac:(simpl; lia) ltac:(simpl; lia)).
Defined.

(** X4. When the server cuts every page to [cap] items, fewer than the
    [maxResults] asked for, and the collection has more than [cap] items, the
    aggregation returns, but with fewer items than the collection holds: the
    cursor moves on by [maxResults], whatever the size of the page that came
    back. *)
Theorem fetchAllPages_searchIssues_capped_loses_items {JiraIssue : Type} :
  forall (cap : nat) (jql : string) (fields : option (list string))
         (params : option PaginationParams.t) (items : list JiraIssue) (fuel : nat),
    RequiredPaginationParams.startAt (createPaginationParams params) = 0 ->
    (cap < Z.to_nat (RequiredPaginationParams.maxResults (createPaginationParams params)))%nat ->
    (cap < List.length items)%nat ->
    (List.length items < fuel)%nat ->
    exists xs,
      completion (fetchAllPages fuel
                    (asPageFn (searchIssues (pagingServer cap) jql fields))
                    params (freshSession items)) = Resolved xs /\
      (List.length xs < List.length items)%nat.
Proof.
  intros cap jql fields params items fuel Hs Hcap Hlen Hfuel. unfold fetchAllPages.
  set (p0 := createPaginationParams params) in *.
  set (m := Z.to_nat (RequiredPaginationParams.maxResults p0)) in *.
  set (k := Z.to_nat (RequiredPaginationParams.startAt p0)) in *.
  assert (Hp : p0 = RequiredPaginationParams.mk (Z.of_nat m) (Z.of_nat k))
    by (apply cursor_of_nat; lia).
  rewrite Hp.
  assert (Hk : k = 0%nat) by (subst k; rewrite Hs; reflexivity).
  rewrite Hk.
  assert (Hfuel' : (List.length items - 0 < fuel)%nat) by lia.
  destruct (fetchLoop_loses_items cap jql fields items m Hcap fuel 0%nat []
              (freshSession items) eq_refl Hfuel') as (xs & Hc & _ & Hlt).
  exists xs. split; [exact Hc |].
  simpl in Hlt. rewrite Nat.sub_0_r in Hlt. apply Hlt. exact Hlen.
Qed.

Lemma fetchAllPages_searchIssues_capped_loses_items_witness :
  exists xs,
    completion (fetchAllPages 6
                  (asPageFn (searchIssues (pagingServer 1) "project = TEST" None))
                  twoAtATime (freshSession ["T-1"; "T-2"; "T-3"; "T-4"; "T-5"])) =
    Resolved xs /\
    (List.length xs < 5)%nat.
Proof.
  exact (fetchAllPages_searchIssues_capped_loses_items 1 "project = TEST" None twoAtATime
           ["T-1"; "T-2"; "T-3"; "T-4"; "T-5"] 6
           eq_refl ltac:(simpl; lia) ltac:(simpl; lia) ltac:(simpl; lia)).
Defined.

(** With a cap of one item and pages of two asked for, every second issue
    is missing. *)
Example capped_run :
  completion (fetchAllPages 6
                (asPageFn (searchIssues (pagingServer 1) "project = TEST" None))
                twoAtATime (freshSession ["T-1"; "T-2"; "T-3"; "T-4"; "T-5"])) =
  Resolved ["T-1"; "T-3"; "T-5"].
Proof. reflexivity. Qed.

(** X5. With [maxResults = 0] the cursor never moves: over a collection that
    has an item at [startAt], the aggregation fetches the same empty page
    again and again and never returns. *)
Theorem fetchAllPages_searchIssues_zero_page_size {JiraIssue : Type} :
  forall (cap : nat) (jql : string) (fields : option (list string))
         (params : option PaginationParams.t) (items : list JiraIssue) (fuel : nat),
    RequiredPaginationParams.maxResults (createPaginationParams params) = 0 ->
    0 <= RequiredPaginationParams.startAt (createPaginationParams params) ->
    (Z.to_nat (RequiredPaginationParams.startAt (createPaginationParams params))
     < List.length items)%nat ->
    completion (fetchAllPages fuel
                  (asPageFn (searchIssues (pagingServer cap) jql fields))
                  params (freshSession items)) = Pending /\
    List.length (calls (fetchAllPages fuel
                          (asPageFn (searchIssues (pagingServer cap) jql fields))
                          params (freshSession items))) = fuel.
Proof.
  intros cap jql fields params items fuel Hm Hs Hlt. unfold fetchAllPages.
  set (p0 := createPaginationParams params) in *.
  set (m := Z.to_nat (RequiredPaginationParams.maxResults p0)) in *.
  set (k := Z.to_nat (RequiredPaginationParams.startAt p0)) in *.
  assert (Hp : p0 = RequiredPaginationParams.mk (Z.of_nat m) (Z.of_nat k))
    by (apply cursor_of_nat; lia).
  assert (Hm0 : m = 0%nat) by (subst m; rewrite Hm; reflexivity).
  rewrite Hm0 in Hp. rewrite Hp.
  exact (fetchLoop_zero_page_size cap jql fields items fuel k []
           (freshSession items) eq_refl Hlt).
Qed.

Lemma fetchAllPages_searchIssues_zero_page_size_witness :
  completion (fetchAllPages 40
                (asPageFn (searchIssues (pagingServer 100) "project = TEST" None))
                (Some (PaginationParams.mk (Some 0) None))
                (freshSession ["T-1"; "T-2"])) = Pending /\
  List.length (calls (fetchAllPages 40
                        (asPageFn (searchIssues (pagingServer 100) "project = TEST" None))
                        (Some (PaginationParams.mk (Some 0) None))
                        (freshSession ["T-1"; "T-2"]))) = 40%nat.
Proof.
  exact (fetchAllPages_searchIssues_zero_page_size 100 "project = TEST" None
           (Some (PaginationParams.mk (Some 0) None)) ["T-1"; "T-2"] 40
           eq_refl ltac:(simpl; lia) ltac:(simpl; lia)).
Defined.

(* ================================================================= *)
(** * Termination of an aggregation over pages built by createPaginatedResponse *)

Section TerminationBound.

Context {T E W : Type}.
Variable fetchPage : PageFn T E W.
Variable N : Z.

(** Pages as [searchIssues] and [getComments] build them: [isLast] computed
    from the cursor passed in, which is left alone, and a total of at most
    [N]. *)
Hypothesis Hpage :
  forall p s r p' s',
    fetchPage p s = (inr r, p', s') ->
    p' = p /\
    PaginatedResponse.isLast r =
      (RequiredPaginationParams.startAt p
       + Z.of_nat (List.length (PaginatedResponse.values r))
       >=? PaginatedResponse.total r) /\
    PaginatedResponse.total r <= N.

Lemma fetchLoop_terminates (fuel : nat) :
  forall p acc s,
    1 <= RequiredPaginationParams.maxResults p ->
    (Z.to_nat (N - RequiredPaginationParams.startAt p) < fuel)%nat ->
    completion (fetchLoop fuel fetchPage p acc s) <> Pending.
Proof.
  induction fuel as [| fuel IH]; intros p acc s Hm Hfuel; [lia |].
  rewrite fetchLoop_step.
  destruct (fetchPage p s) as [[[e | r] p'] s'] eqn:Hf; [discriminate |].
  destruct (Hpage _ _ _ _ _ Hf) as (-> & Hlast & Htotal).
  destruct (PaginatedResponse.isLast r); [discriminate |].
  unfold completion at 1. cbn [fst].
  symmetry in Hlast. rewrite Z.geb_leb in Hlast. apply Z.leb_gt in Hlast.
  apply IH; destruct p as [m st]; unfold advance; simpl in *; lia.
Qed.

End TerminationBound.

(** The pages of [searchIssues] and [getComments] are of that kind. *)
Lemma searchIssues_pages_derived
  {JiraIssue JiraComment JiraProject JiraUser W : Type}
  (axios : @Transport JiraIssue JiraComment JiraProject JiraUser W)
  (jql : string) (fields : option (list string)) (N : Z) :
  (forall rq w reply w',
      axios SearchT rq w = (inr reply, w') -> SearchReply.total reply <= N) ->
  forall p s r p' s',
    asPageFn (searchIssues axios jql fields) p s = (inr r, p', s') ->
    p' = p /\
    PaginatedResponse.isLast r =
      (RequiredPaginationParams.startAt p
       + Z.of_nat (List.length (PaginatedResponse.values r))
       >=? PaginatedResponse.total r) /\
    PaginatedResponse.total r <= N.
Proof.
  intros Hbound p s r p' s'. unfold asPageFn, searchIssues, post.
  rewrite roundTrip_run, createPaginationParams_asPaginationParams.
  destruct (axios SearchT _ (Session.world s)) as [[error | reply] w'] eqn:Hreply;
    intros H; [discriminate |].
  injection H as <- <- _.
  split; [reflexivity | split; [reflexivity |]].
  exact (Hbound _ _ _ _ Hreply).
Qed.

Lemma getComments_pages_derived
  {JiraIssue JiraComment JiraProject JiraUser W : Type}
  (axios : @Transport JiraIssue JiraComment JiraProject JiraUser W)
  (issueIdOrKey : string) (N : Z) :
  (forall rq w reply w',
      axios CommentsT rq w = (inr reply, w') -> CommentsReply.total reply <= N) ->
  forall p s r p' s',
    asPageFn (getComments axios issueIdOrKey) p s = (inr r, p', s') ->
    p' = p /\
    PaginatedResponse.isLast r =
      (RequiredPaginationParams.startAt p
       + Z.of_nat (List.length (PaginatedResponse.values r))
       >=? PaginatedResponse.total r) /\
    PaginatedResponse.total r <= N.
Proof.
  intros Hbound p s r p' s'. unfold asPageFn, getComments, get.
  rewrite roundTrip_run, createPaginationParams_asPaginationParams.
  destruct (axios CommentsT _ (Session.world s)) as [[error | reply] w'] eqn:Hreply;
    intros H; [discriminate |].
  injection H as <- <- _.
  split; [reflexivity | split; [reflexivity |]].
  exact (Hbound _ _ _ _ Hreply).
Qed.

(** X6. Aggregating [searchIssues] or [getComments] with [maxResults >= 1]
    always comes to an end when the totals the server reports stay at or
    below some [N], whatever items the server sends and whether or not a
    request fails: the loop has returned or thrown within
    [N - startAt + 1] fetches (one fetch when [startAt >= N]). *)
Theorem fetchAllPages_over_search_terminates
  {JiraIssue JiraComment JiraProject JiraUser W : Type} :
  forall (axios : @Transport JiraIssue JiraComment JiraProject JiraUser W)
         (N : Z) (params : option PaginationParams.t) (s : Session.t W) (fuel : nat),
    1 <= RequiredPaginationParams.maxResults (createPaginationParams params) ->
    (Z.to_nat (N - RequiredPaginationParams.startAt (createPaginationParams params))
     < fuel)%nat ->
    (forall jql fields,
        (forall rq w reply w',
            axios SearchT rq w = (inr reply, w') -> SearchReply.total reply <= N) ->
        completion (fetchAllPages fuel (asPageFn (searchIssues axios jql fields)) params s)
        <> Pending) /\
    (forall issueIdOrKey,
        (forall rq w reply w',
            axios CommentsT rq w = (inr reply, w') -> CommentsReply.total reply <= N) ->
        completion (fetchAllPages fuel (asPageFn (getComments axios issueIdOrKey)) params s)
        <> Pending).
Proof.
  intros axios N params s fuel Hm Hfuel. split.
  - intros jql fields Hbound. unfold fetchAllPages.
    exact (fetchLoop_terminates _ N (searchIssues_pages_derived axios jql fields N Hbound)
             fuel _ _ _ Hm Hfuel).
  - intros key Hbound. unfold fetchAllPages.
    exact (fetchLoop_terminates _ N (getComments_pages_derived axios key N Hbound)
             fuel _ _ _ Hm Hfuel).
Qed.

Lemma fetchAllPages_over_search_terminates_witness :
  completion (fetchAllPages 11
                (asPageFn (searchIssues (steadyAxios (service [])) "project = TEST" None))
                None (freshSession tt)) <> Pending /\
  completion (fetchAllPages 11
                (asPageFn (getComments (steadyAxios (service [])) "TEST-1"))
                None (freshSession tt)) <> Pending.
Proof.
  assert (H1 : 1 <= RequiredPaginationParams.maxResults (createPaginationParams None))
    by (simpl; lia).
  assert (H2 : (Z.to_nat (10 - RequiredPaginationParams.startAt (createPaginationParams None))
                < 11)%nat) by (simpl; lia).
  destruct (fetchAllPages_over_search_terminates (steadyAxios (service [])) 10 None
              (freshSession tt) 11 H1 H2) as [Hs Hc].
  split.
  - apply (Hs "project = TEST" None).
    intros rq w reply w' H. injection H as <- _. simpl. lia.
  - apply (Hc "TEST-1").
    intros rq w reply w' H. injection H as <- _. simpl. lia.
Defined.

(* ================================================================= *)
(** * Errors thrown by the client methods *)

Section NormalizedCalls.

Context {W : Type}.

Lemma requestAt_oneNormalizedCall {R : Type} (client : @AxiosAt W R) (rq : Request.t) :
  oneNormalizedCall (requestAt client rq).
Proof.
  intros s. unfold requestAt.
  destruct (client rq (Session.world s)) as [[error | data] w']; simpl.
  - split; [exists rq; reflexivity |].
    intros e H. injection H as <-. split; [reflexivity | exists error; reflexivity].
  - split; [exists rq; reflexivity | discriminate].
Qed.

Lemma reshaped_oneNormalizedCall {A B : Type} (m : @Client W A) (f : A -> B) :
  oneNormalizedCall m -> oneNormalizedCall (bind m (fun d => ret (f d))).
Proof.
  intros Hm s. destruct (Hm s) as [Hsent Hthrow]. unfold bind, ret.
  destruct (m s) as [[e | a] s']; simpl in *.
  - split; [exact Hsent |].
    intros e0 H. injection H as <-. exact (Hthrow e eq_refl).
  - split; [exact Hsent | discriminate].
Qed.

End NormalizedCalls.

Section ListingCalls.

Context {JiraIssue JiraComment JiraProject JiraUser W : Type}.
Variable axios : @Transport JiraIssue JiraComment JiraProject JiraUser W.

Lemma request_oneNormalizedCall (ty : ReplyType) (rq : Request.t) :
  oneNormalizedCall (request axios ty rq).
Proof. exact (requestAt_oneNormalizedCall (axios ty) rq). Qed.







Lemma getTransitions_oneNormalizedCall issueIdOrKey :
  oneNormalizedCall (getTransitions axios issueIdOrKey).
Proof. apply reshaped_oneNormalizedCall, request_oneNormalizedCall. Qed.

End ListingCalls.







(* ================================================================= *)
(** * More on transitionIssue *)

(** The whole of [transitionIssue], by cases on what the transport answers. *)
Lemma transitionIssue_run
  {JiraIssue JiraComment JiraProject JiraUser W : Type}
  (axios : @Transport JiraIssue JiraComment JiraProject JiraUser W)
  (issueIdOrKey transitionIdOrName : string) (s : Session.t W) :
  transitionIssue axios issueIdOrKey transitionIdOrName s =
  match axios TransitionsT
              (Request.mk GET ("/issue/" +++ issueIdOrKey +++ "/transitions") None None)
              (Session.world s) with
  | (inl thrown, w1) =>
    (inl (ThrowJiraError (handleApiError thrown)),
     Session.mk w1
       (Session.sent s ++
        [Request.mk GET ("/issue/" +++ issueIdOrKey +++ "/transitions") None None]))
  | (inr reply, w1) =>
    match find (fun t => (JiraTransition.id t =? transitionIdOrName)%string
                         || (JiraTransition.name t =? transitionIdOrName)%string)
               (TransitionsReply.transitions reply) with
    | None =>
      (inl (ThrowError ("Transition " +++ dquote +++ transitionIdOrName +++ dquote
                        +++ " not found for issue " +++ issueIdOrKey)),
       Session.mk w1
         (Session.sent s ++
          [Request.mk GET ("/issue/" +++ issueIdOrKey +++ "/transitions") None None]))
    | Some t =>
      request axios VoidT
        (Request.mk POST ("/issue/" +++ issueIdOrKey +++ "/transitions")
           (Some (JObj [("transition", JObj [("id", JStr (JiraTransition.id t))])]))
           None)
        (Session.mk w1
           (Session.sent s ++
            [Request.mk GET ("/issue/" +++ issueIdOrKey +++ "/transitions") None None]))
    end
  end.
Proof.
  unfold transitionIssue, bind at 1, getTransitions, get.
  rewrite roundTrip_run.
  destruct (axios TransitionsT _ (Session.world s)) as [[thrown | reply] w1];
    [reflexivity |].
  destruct (find _ (TransitionsReply.transitions reply)); reflexivity.
Qed.

(** X9. When fetching the candidate transitions fails, [transitionIssue]
    throws the normalised error of that failure and posts nothing: the fetch
    is the only request made. *)
Theorem transitionIssue_fetch_failure
  {JiraIssue JiraComment JiraProject JiraUser W : Type} :
  forall (axios : @Transport JiraIssue JiraComment JiraProject JiraUser W)
         (issueIdOrKey transitionIdOrName : string) (s : Session.t W)
         (thrown : Thrown) (w1 : W),
    axios TransitionsT
          (Request.mk GET ("/issue/" +++ issueIdOrKey +++ "/transitions") None None)
          (Session.world s) = (inl thrown, w1) ->
    transitionIssue axios issueIdOrKey transitionIdOrName s =
    (inl (ThrowJiraError (handleApiError thrown)),
     Session.mk w1
       (Session.sent s ++
        [Request.mk GET ("/issue/" +++ issueIdOrKey +++ "/transitions") None None])).
Proof.
  intros axios key x s thrown w1 Hget.
  rewrite transitionIssue_run, Hget. reflexivity.
Qed.

Lemma transitionIssue_fetch_failure_witness :
  transitionIssue (failingAxios (AxiosError "timeout of 30000ms exceeded" None))
                  "TEST-1" "Done" (freshSession tt) =
  (inl (ThrowJiraError (JiraError.mk "timeout of 30000ms exceeded" 500 [] [])),
   Session.mk tt [Request.mk GET "/issue/TEST-1/transitions" None None]).
Proof.
  exact (transitionIssue_fetch_failure
           (failingAxios (AxiosError "timeout of 30000ms exceeded" None))
           "TEST-1" "Done" (freshSession tt) _ tt eq_refl).
Defined.

(** X10. [transitionIssue] makes one or two requests: first the fetch of the
    candidates and then, at most, one POST.  A POST is only made after the
    fetch has succeeded, and the id it carries is the id of one of the
    fetched candidates, one whose id or name equals the input. *)
Theorem transitionIssue_posts_only_fetched_ids
  {JiraIssue JiraComment JiraProject JiraUser W : Type} :
  forall (axios : @Transport JiraIssue JiraComment JiraProject JiraUser W)
         (issueIdOrKey transitionIdOrName : string) (s : Session.t W),
    exists new,
      Session.sent (snd (transitionIssue axios issueIdOrKey transitionIdOrName s)) =
      Session.sent s ++
      Request.mk GET ("/issue/" +++ issueIdOrKey +++ "/transitions") None None :: new /\
      (new = [] \/
       exists candidates w1 t,
         axios TransitionsT
               (Request.mk GET ("/issue/" +++ issueIdOrKey +++ "/transitions") None None)
               (Session.world s) = (inr (TransitionsReply.mk candidates), w1) /\
         In t candidates /\
         (JiraTransition.id t = transitionIdOrName \/
          JiraTransition.name t = transitionIdOrName) /\
         new =
         [Request.mk POST ("/issue/" +++ issueIdOrKey +++ "/transitions")
            (Some (JObj [("transition", JObj [("id", JStr (JiraTransition.id t))])]))
            None]).
Proof.
  intros axios key x s. rewrite transitionIssue_run.
  destruct (axios TransitionsT _ (Session.world s)) as [[thrown | [candidates]] w1] eqn:Hget.
  - exists []. split; [reflexivity | left; reflexivity].
  - cbn [TransitionsReply.transitions].
    destruct (find _ candidates) as [t |] eqn:Hfind.
    + apply find_some in Hfind. destruct Hfind as [Hin Hmatch].
      apply orb_prop in Hmatch.
      eexists. split.
      * refine (eq_trans (request_sent axios VoidT _ _) _).
        cbn [Session.sent]. rewrite <- app_assoc. reflexivity.
      * right. exists candidates, w1, t.
        split; [reflexivity | split; [exact Hin | split; [| reflexivity]]].
        destruct Hmatch as [H | H]; apply String.eqb_eq in H; auto.
    + exists []. split; [reflexivity | left; reflexivity].
Qed.



(* ================================================================= *)
(** * More on handleApiError *)



(* ================================================================= *)
(** * What the requests carry *)

(** X13. An empty [fields] list.  [getIssue] treats it as no list at all and
    sends no [fields] parameter; with a non-empty list it sends the names
    joined by commas.  [searchIssues] sends the empty list as it is, and the
    seven default fields only when no list is given. *)
Theorem empty_fields_list
  {JiraIssue JiraComment JiraProject JiraUser W R : Type} :
  forall (axios : @Transport JiraIssue JiraComment JiraProject JiraUser W)
         (client : @AxiosAt W R) (issueIdOrKey jql : string)
         (pagination : option PaginationParams.t) (s : Session.t W),
    getIssue client issueIdOrKey (Some []) s = getIssue client issueIdOrKey None s /\
    Session.sent (snd (getIssue client issueIdOrKey None s)) =
      Session.sent s ++
      [Request.mk GET ("/issue/" +++ issueIdOrKey) None (Some (AxiosRequestConfig.mk None))] /\
    (forall f rest,
        Session.sent (snd (getIssue client issueIdOrKey (Some (f :: rest)) s)) =
        Session.sent s ++
        [Request.mk GET ("/issue/" +++ issueIdOrKey) None
           (Some (AxiosRequestConfig.mk
                    (Some (JObj [("fields", JStr (joinComma (f :: rest)))]))))]) /\
    (exists rq,
        Session.sent (snd (searchIssues axios jql (Some []) pagination s)) =
          Session.sent s ++ [rq] /\
        optChain (requestPayload rq) (jfield "fields") = Some (JArr [])) /\
    (exists rq,
        Session.sent (snd (searchIssues axios jql None pagination s)) =
          Session.sent s ++ [rq] /\
        optChain (requestPayload rq) (jfield "fields") =
          Some (JArr (map JStr defaultFields))).
Proof.
  intros axios client key jql pagination s.
  assert (Hsent : forall rq,
             Session.sent (snd (requestAt client rq s)) = Session.sent s ++ [rq]).
  { intros rq. unfold requestAt.
    destruct (client rq (Session.world s)) as [[error | data] w']; reflexivity. }
  assert (Hsearch : forall fields,
             exists rq,
               Session.sent (snd (searchIssues axios jql fields pagination s)) =
                 Session.sent s ++ [rq] /\
               optChain (requestPayload rq) (jfield "fields") =
                 Some (JArr (map JStr (nullish fields defaultFields)))).
  { intros fields. eexists. split.
    - unfold searchIssues, post. rewrite roundTrip_run.
      destruct (axios SearchT _ (Session.world s)) as [[error | reply] w']; reflexivity.
    - reflexivity. }
  split; [reflexivity |].
  split; [apply Hsent |].
  split; [intros f rest; apply Hsent |].
  split; [exact (Hsearch (Some [])) | exact (Hsearch None)].
Qed.

(** [fields.join(',')] on the test-suite's list. *)
Example getIssue_joins_fields :
  Session.sent (snd (getIssue (fun _ (w : unit) => (@inr Thrown string "TEST-1", w))
                       "TEST-1" (Some ["summary"; "status"; "assignee"])
                       (freshSession tt))) =
  [Request.mk GET "/issue/TEST-1" None
     (Some (AxiosRequestConfig.mk (Some (JObj [("fields", JStr "summary,status,assignee")]))))].
Proof. reflexivity. Qed.

(** X14. The cursor a listing method reports is the cursor it asked for: when
    one of the six listing methods returns a response, the request it has
    sent carries a [startAt] and a [maxResults] equal to the [startAt] and
    [maxResults] of the response (in the body for [searchIssues], in the
    query parameters for the others). *)
Theorem listing_reports_the_cursor_sent
  {JiraIssue JiraComment JiraProject JiraUser W : Type} :
  forall (axios : @Transport JiraIssue JiraComment JiraProject JiraUser W)
         (pagination : option PaginationParams.t) (s : Session.t W),
    let sentCursor {T : Type} (r : PaginatedResponse.t T) (s' : Session.t W) :=
      exists rq,
        Session.sent s' = Session.sent s ++ [rq] /\
        optChain (requestPayload rq) (jfield "startAt") =
          Some (JNum (PaginatedResponse.startAt r)) /\
        optChain (requestPayload rq) (jfield "maxResults") =
          Some (JNum (PaginatedResponse.maxResults r)) in
    (forall jql fields r s',
        searchIssues axios jql fields pagination s = (inr r, s') -> sentCursor r s') /\
    (forall key r s',
        getComments axios key pagination s = (inr r, s') -> sentCursor r s') /\
    (forall r s',
        getAllProjects axios pagination s = (inr r, s') -> sentCursor r s') /\
    (forall query r s',
        searchProjects axios query pagination s = (inr r, s') -> sentCursor r s') /\
    (forall query r s',
        searchUsers axios query pagination s = (inr r, s') -> sentCursor r s') /\
    (forall key r s',
        getAssignableUsers axios key pagination s = (inr r, s') -> sentCursor r s').
Proof.
  intros axios pagination s sentCursor. subst sentCursor. cbv beta.
  repeat apply conj; intros;
    match goal with
    | H : _ = (inr _, _) |- _ =>
      unfold searchIssues, getComments, getAllProjects, searchProjects, searchUsers,
             getAssignableUsers, post, get in H;
      rewrite roundTrip_run in H;
      match type of H with
      | context [axios ?ty ?rq ?w] =>
        destruct (axios ty rq w) as [[error | reply] w']; [discriminate H |];
        injection H as <- <-; exists rq;
        split; [reflexivity | split; reflexivity]
      end
    end.
Qed.

Lemma listing_reports_the_cursor_sent_witness :
  exists rq,
    Session.sent (snd (searchUsers cannedAxios "john" twoAtATime
                         (freshSession (service [])))) = [] ++ [rq] /\
    optChain (requestPayload rq) (jfield "startAt") = Some (JNum 0) /\
    optChain (requestPayload rq) (jfield "maxResults") = Some (JNum 2).
Proof.
  pose proof (listing_reports_the_cursor_sent cannedAxios twoAtATime
                (freshSession (service []))) as H.
  cbv zeta beta in H. destruct H as (_ & _ & _ & _ & H & _).
  exact (H "john" _ _ eq_refl).
Defined.

(* ================================================================= *)
(** * Properties of the configuration helpers *)

Lemma truthy_missing (v : option string) :
  v = None \/ v = Some "" -> truthy v = None.
Proof. intros [-> | ->]; reflexivity. Qed.

Lemma truthy_present (v : option string) (x : string) :
  v = Some x -> x <> "" -> truthy v = Some x.
Proof. intros -> H. destruct x; [congruence | reflexivity]. Qed.

(** X15. [createConfigFromEnv] succeeds exactly when [JIRA_BASE_URL] and
    [JIRA_TOKEN] are both set and not empty.  Otherwise it throws an [Error]
    naming the first of the two, in that order, that is unset or empty; the
    numeric variables play no part in this. *)
Theorem createConfigFromEnv_required_variables {number : Type} :
  forall (lit : Z -> number) (parseInt : string -> Z -> number)
         (env : string -> option string),
    (env "JIRA_BASE_URL" = None \/ env "JIRA_BASE_URL" = Some "" ->
     createConfigFromEnv lit parseInt env =
     inl (ThrowError "JIRA_BASE_URL environment variable is required")) /\
    (forall baseUrl,
        env "JIRA_BASE_URL" = Some baseUrl -> baseUrl <> "" ->
        env "JIRA_TOKEN" = None \/ env "JIRA_TOKEN" = Some "" ->
        createConfigFromEnv lit parseInt env =
        inl (ThrowError "JIRA_TOKEN environment variable is required")) /\
    (forall baseUrl token,
        env "JIRA_BASE_URL" = Some baseUrl -> baseUrl <> "" ->
        env "JIRA_TOKEN" = Some token -> token <> "" ->
        exists apiVersion timeout,
          createConfigFromEnv lit parseInt env =
          inr (JiraClientConfig.mk baseUrl token (Some apiVersion) (Some timeout))) /\
    (forall config,
        createConfigFromEnv lit parseInt env = inr config ->
        env "JIRA_BASE_URL" = Some (JiraClientConfig.baseUrl config) /\
        JiraClientConfig.baseUrl config <> "" /\
        env "JIRA_TOKEN" = Some (JiraClientConfig.token config) /\
        JiraClientConfig.token config <> "").
Proof.
  intros lit parseInt env. unfold createConfigFromEnv.
  repeat apply conj.
  - intros H. rewrite (truthy_missing _ H). reflexivity.
  - intros b Hb Hbne Ht.
    rewrite (truthy_present _ _ Hb Hbne), (truthy_missing _ Ht). reflexivity.
  - intros b t Hb Hbne Ht Htne.
    rewrite (truthy_present _ _ Hb Hbne), (truthy_present _ _ Ht Htne).
    eexists _, _. reflexivity.
  - intros config.
    destruct (env "JIRA_BASE_URL") as [[| c1 b] |]; try discriminate.
    destruct (env "JIRA_TOKEN") as [[| c2 t] |]; try discriminate.
    simpl. intros H. injection H as <-. simpl.
    repeat split; discriminate.
Qed.

Lemma createConfigFromEnv_required_variables_witness :
  createConfigFromEnv Some (fun _ _ => None) envWithoutToken =
    inl (ThrowError "JIRA_TOKEN environment variable is required") /\
  (exists apiVersion timeout,
      createConfigFromEnv Some (fun _ _ => @None Z) envWithToken =
      inr (JiraClientConfig.mk "https://example.atlassian.net" "test-token"
             (Some apiVersion) (Some timeout))) /\
  createConfigFromEnv Some (fun _ _ => @None Z) (fun _ => None) =
    inl (ThrowError "JIRA_BASE_URL environment variable is required").
Proof.
  split; [| split].
  - exact (proj1 (proj2 (createConfigFromEnv_required_variables
                           Some (fun _ _ => @None Z) envWithoutToken))
             "https://example.atlassian.net" eq_refl ltac:(discriminate)
             (or_intror eq_refl)).
  - exact (proj1 (proj2 (proj2 (createConfigFromEnv_required_variables
                                  Some (fun _ _ => @None Z) envWithToken)))
             "https://example.atlassian.net" "test-token"
             eq_refl ltac:(discriminate) eq_refl ltac:(discriminate)).
  - exact (proj1 (createConfigFromEnv_required_variables
                    Some (fun _ _ => @None Z) (fun _ => None))
             (or_introl eq_refl)).
Defined.

(** X16. In the configuration read from the environment, [apiVersion] is the
    default [3] when [JIRA_API_VERSION] is unset or empty and otherwise
    [parseInt] of its value in base 10, whatever that is: an unparsable
    value is not replaced by the default.  The same holds for [timeout],
    [JIRA_REQUEST_TIMEOUT] and [30000].  Such a configuration is complete:
    [createConfig], which the client constructors apply next, fills in
    nothing. *)
Theorem createConfigFromEnv_numbers {number : Type} :
  forall (lit : Z -> number) (parseInt : string -> Z -> number)
         (env : string -> option string) (config : JiraClientConfig.t number),
    createConfigFromEnv lit parseInt env = inr config ->
    (env "JIRA_API_VERSION" = None \/ env "JIRA_API_VERSION" = Some "" ->
     JiraClientConfig.apiVersion config = Some (lit 3)) /\
    (forall v, env "JIRA_API_VERSION" = Some v -> v <> "" ->
               JiraClientConfig.apiVersion config = Some (parseInt v 10)) /\
    (env "JIRA_REQUEST_TIMEOUT" = None \/ env "JIRA_REQUEST_TIMEOUT" = Some "" ->
     JiraClientConfig.timeout config = Some (lit 30000)) /\
    (forall v, env "JIRA_REQUEST_TIMEOUT" = Some v -> v <> "" ->
               JiraClientConfig.timeout config = Some (parseInt v 10)) /\
    asJiraClientConfig (createConfig lit config) = config.
Proof.
  intros lit parseInt env config. unfold createConfigFromEnv.
  destruct (truthy (env "JIRA_BASE_URL")) as [b |]; [| discriminate].
  destruct (truthy (env "JIRA_TOKEN")) as [t |]; [| discriminate].
  intros H. injection H as <-. simpl. unfold envNumber.
  repeat apply conj.
  - intros H. rewrite (truthy_missing _ H). reflexivity.
  - intros v Hv Hne. rewrite (truthy_present _ _ Hv Hne). reflexivity.
  - intros H. rewrite (truthy_missing _ H). reflexivity.
  - intros v Hv Hne. rewrite (truthy_present _ _ Hv Hne). reflexivity.
  - reflexivity.
Qed.

Lemma createConfigFromEnv_numbers_witness :
  createConfigFromEnv Some (fun _ _ => @None Z) envWithToken =
    inr (JiraClientConfig.mk "https://example.atlassian.net" "test-token"
           (Some (Some 3)) (Some (Some 30000))) /\
  JiraClientConfig.apiVersion
    (JiraClientConfig.mk "https://example.atlassian.net" "test-token"
       (Some (Some 3)) (Some (Some 30000))) = Some (Some 3) /\
  asJiraClientConfig
    (createConfig Some
       (JiraClientConfig.mk "https://example.atlassian.net" "test-token"
          (Some (Some 3)) (Some (Some 30000)))) =
  JiraClientConfig.mk "https://example.atlassian.net" "test-token"
    (Some (Some 3)) (Some (Some 30000)).
Proof.
  pose proof (createConfigFromEnv_numbers Some (fun _ _ => @None Z) envWithToken _ eq_refl)
    as (H1 & _ & _ & _ & H5).
  split; [reflexivity |].
  split; [exact (H1 (or_introl eq_refl)) | exact H5].
Defined.

(** X17. The revision of [createConfigFromEnv] that authenticates with an
    email checks [JIRA_BASE_URL], then [JIRA_EMAIL], then [JIRA_API_TOKEN],
    and throws an [Error] naming the first that is unset or empty; it
    succeeds when all three are set and not empty. *)
Theorem createEmailConfigFromEnv_required_variables {number : Type} :
  forall (lit : Z -> number) (parseInt : string -> Z -> number)
         (env : string -> option string),
    (env "JIRA_BASE_URL" = None \/ env "JIRA_BASE_URL" = Some "" ->
     createEmailConfigFromEnv lit parseInt env =
     inl (ThrowError "JIRA_BASE_URL environment variable is required")) /\
    (forall baseUrl,
        env "JIRA_BASE_URL" = Some baseUrl -> baseUrl <> "" ->
        env "JIRA_EMAIL" = None \/ env "JIRA_EMAIL" = Some "" ->
        createEmailConfigFromEnv lit parseInt env =
        inl (ThrowError "JIRA_EMAIL environment variable is required")) /\
    (forall baseUrl email,
        env "JIRA_BASE_URL" = Some baseUrl -> baseUrl <> "" ->
        env "JIRA_EMAIL" = Some email -> email <> "" ->
        env "JIRA_API_TOKEN" = None \/ env "JIRA_API_TOKEN" = Some "" ->
        createEmailConfigFromEnv lit parseInt env =
        inl (ThrowError "JIRA_API_TOKEN environment variable is required")) /\
    (forall baseUrl email apiToken,
        env "JIRA_BASE_URL" = Some baseUrl -> baseUrl <> "" ->
        env "JIRA_EMAIL" = Some email -> email <> "" ->
        env "JIRA_API_TOKEN" = Some apiToken -> apiToken <> "" ->
        exists apiVersion timeout,
          createEmailConfigFromEnv lit parseInt env =
          inr (JiraEmailConfig.mk baseUrl email apiToken (Some apiVersion) (Some timeout))).
Proof.
  intros lit parseInt env. unfold createEmailConfigFromEnv.
  repeat apply conj.
  - intros H. rewrite (truthy_missing _ H). reflexivity.
  - intros b Hb Hbne He.
    rewrite (truthy_present _ _ Hb Hbne), (truthy_missing _ He). reflexivity.
  - intros b e Hb Hbne He Hene Ht.
    rewrite (truthy_present _ _ Hb Hbne), (truthy_present _ _ He Hene),
      (truthy_missing _ Ht). reflexivity.
  - intros b e t Hb Hbne He Hene Ht Htne.
    rewrite (truthy_present _ _ Hb Hbne), (truthy_present _ _ He Hene),
      (truthy_present _ _ Ht Htne).
    eexists _, _. reflexivity.
Qed.

Lemma createEmailConfigFromEnv_required_variables_witness :
  createEmailConfigFromEnv Some (fun _ _ => @None Z) envWithToken =
  inl (ThrowError "JIRA_EMAIL environment variable is required").
Proof.
  exact (proj1 (proj2 (createEmailConfigFromEnv_required_variables
                         Some (fun _ _ => @None Z) envWithToken))
           "https://example.atlassian.net" eq_refl ltac:(discriminate)
           (or_introl eq_refl)).
Defined.

(** X18. [createConfig] keeps [baseUrl] and [token], keeps an [apiVersion] or
    [timeout] that is given (a given [0] included) and fills in [3] and
    [30000] for those that are not; applied to its own result it changes
    nothing. *)
Theorem createConfig_defaults_idempotent {number : Type} :
  forall (lit : Z -> number) (config : JiraClientConfig.t number),
    RequiredJiraClientConfig.baseUrl (createConfig lit config) =
      JiraClientConfig.baseUrl config /\
    RequiredJiraClientConfig.token (createConfig lit config) =
      JiraClientConfig.token config /\
    RequiredJiraClientConfig.apiVersion (createConfig lit config) =
      match JiraClientConfig.apiVersion config with Some v => v | None => lit 3 end /\
    RequiredJiraClientConfig.timeout (createConfig lit config) =
      match JiraClientConfig.timeout config with Some v => v | None => lit 30000 end /\
    createConfig lit (asJiraClientConfig (createConfig lit config)) =
      createConfig lit config.
Proof.
  intros lit [b t [v |] [tm |]]; repeat split.
Qed.
